(** * certbot-regru: the Reg.ru DNS authenticator of Certbot

    A shallow embedding of [certbot_regru_freebsd/dns.py] and the
    properties of its credential validator, record manager and transport.

    Conventions of the embedding.
    - A Python [str] is a [string]; the character numbered [n] stands for
      the code point U+00[n], so the strings range over U+0000..U+00FF.
    - A Python [dict] with [str] keys is an association list in insertion
      order, without duplicate keys: [json.dumps] depends on the order.
    - The only object whose identity matters is the [input_data] dict
      that [_create_params] receives from its caller: it lives in a heap
      of dicts and is passed by reference. All other values are immutable
      and passed by value.
    - Exceptions, the log and the POSTs sent are threaded through a state
      and error monad [M]. What an exception leaves behind in the state
      (a log line, a mutated dict) stays there, as in Python. *)

From Stdlib Require Import ZArith Ascii String List Lia.
From Stdlib Require Import Decimal DecimalFacts DecimalPos DecimalString.
From stdpp Require Import base option list strings gmap.

Local Open Scope string_scope.
Local Open Scope list_scope.

(** String concatenation computes on a literal, as in Stdlib. *)
#[local] Arguments String.append !s1 s2 : simpl nomatch.

(** ** Python values *)

Module Py.

(** The values that the program builds and that a JSON body decodes to.
    Python's [float] is left out: the program never builds one and never
    looks inside a number. *)
#[local] Unset Elimination Schemes.
Inductive pyval : Type :=
  | PNone
  | PBool (b : bool)
  | PInt (z : Z)
  | PStr (s : string)
  | PList (l : list pyval)
  | PDict (d : list (string * pyval)).
#[local] Set Elimination Schemes.

Abbreviation pydict := (list (string * pyval)).

(** Induction on values, through the lists and the dicts. *)
Section pyval_induction.
Variable P : pyval -> Prop.
Hypothesis HNone : P PNone.
Hypothesis HBool : forall b, P (PBool b).
Hypothesis HInt : forall z, P (PInt z).
Hypothesis HStr : forall s, P (PStr s).
Hypothesis HList : forall l, Forall P l -> P (PList l).
Hypothesis HDict : forall d, Forall (fun kv => P (snd kv)) d -> P (PDict d).

Fixpoint pyval_ind (v : pyval) : P v :=
  match v with
  | PNone => HNone
  | PBool b => HBool b
  | PInt z => HInt z
  | PStr s => HStr s
  | PList l =>
      HList l
        ((fix go (l : list pyval) : Forall P l :=
            match l with
            | [] => List.Forall_nil P
            | x :: xs => List.Forall_cons P x xs (pyval_ind x) (go xs)
            end) l)
  | PDict d =>
      HDict d
        ((fix go (d : list (string * pyval))
            : Forall (fun kv => P (snd kv)) d :=
            match d with
            | [] => List.Forall_nil _
            | kv :: xs =>
                List.Forall_cons (fun kv => P (snd kv)) kv xs
                  (pyval_ind (snd kv)) (go xs)
            end) d)
  end.
End pyval_induction.

(** [None] or a [str], as [credentials.conf] returns it. *)
Definition of_option (o : option string) : pyval :=
  match o with
  | Some s => PStr s
  | None => PNone
  end.

(** Truth value of [None] or a [str]: [None] and [''] are false. *)
Definition truthy (o : option string) : bool :=
  match o with
  | Some (String _ _) => true
  | _ => false
  end.

(** *** dict *)

(** [d.get(k)]. *)
Fixpoint dict_get (k : string) (d : pydict) : option pyval :=
  match d with
  | [] => None
  | (k', v) :: d' => if String.eqb k' k then Some v else dict_get k d'
  end.

(** [d[k] = v]: an existing key keeps its place, a new key goes last. *)
Fixpoint dict_set (k : string) (v : pyval) (d : pydict) : pydict :=
  match d with
  | [] => [(k, v)]
  | (k', v') :: d' =>
      if String.eqb k' k then (k', v) :: d' else (k', v') :: dict_set k v d'
  end.

(** [d.update(other)]. *)
Definition dict_update (d other : pydict) : pydict :=
  fold_left (fun acc kv => dict_set kv.1 kv.2 acc) other d.

(** [d.copy()]: a new dict with the same items. *)
Definition dict_copy (d : pydict) : pydict := d.

(** [list(d)]: the keys, in order. *)
Definition dict_keys (d : pydict) : list string := map fst d.

(** *** str *)

(** [s.split(sep)] for a separator of one character. *)
Fixpoint str_split (sep : ascii) (s : string) : list string :=
  match s with
  | EmptyString => [EmptyString]
  | String c s' =>
      if Ascii.eqb c sep then EmptyString :: str_split sep s'
      else match str_split sep s' with
           | [] => [String c EmptyString]
           | w :: ws => String c w :: ws
           end
  end.

(** [sep.join(l)]. *)
Definition str_join (sep : string) (l : list string) : string :=
  String.concat sep l.

(** [l[start:stop]] with Python's treatment of absent, negative and
    out-of-range bounds. *)
Definition slice_bound (n : Z) (dflt : Z) (b : option Z) : Z :=
  match b with
  | None => dflt
  | Some i => let j := if (i <? 0)%Z then (i + n)%Z else i in
              Z.max 0 (Z.min n j)
  end.

Definition py_slice {A} (start stop : option Z) (l : list A) : list A :=
  let n := Z.of_nat (length l) in
  let i := slice_bound n 0 start in
  let j := slice_bound n n stop in
  take (Z.to_nat (j - i)) (drop (Z.to_nat i) l).

(** [prefix] is a prefix of [s]. *)
Fixpoint str_startswith (pre s : string) : bool :=
  match pre, s with
  | EmptyString, _ => true
  | String a pre', String b s' => Ascii.eqb a b && str_startswith pre' s'
  | String _ _, EmptyString => false
  end.

(** [sub in s] for two strings. *)
Fixpoint str_contains (sub s : string) : bool :=
  str_startswith sub s ||
  match s with
  | EmptyString => false
  | String _ s' => str_contains sub s'
  end.

(** [str(z)] for an [int]. *)
Definition str_of_int (z : Z) : string :=
  match z with
  | Z0 => "0"
  | Zpos p => NilEmpty.string_of_uint (Pos.to_uint p)
  | Zneg p => String "-" (NilEmpty.string_of_uint (Pos.to_uint p))
  end.

Definition dquote : ascii := "034"%char.
Definition backslash : ascii := "092"%char.

Definition hex_digit (n : N) : ascii :=
  match n with
  | 0%N => "0" | 1%N => "1" | 2%N => "2" | 3%N => "3" | 4%N => "4"
  | 5%N => "5" | 6%N => "6" | 7%N => "7" | 8%N => "8" | 9%N => "9"
  | 10%N => "a" | 11%N => "b" | 12%N => "c" | 13%N => "d" | 14%N => "e"
  | _ => "f"
  end%char.

(** [repr] of a [str]: between single quotes, or double quotes when it
    holds a single quote and no double one; the quote, the backslash and
    the unprintable characters escaped. *)
Definition repr_char (q c : ascii) : string :=
  let n := N_of_ascii c in
  if Ascii.eqb c q || Ascii.eqb c backslash then String backslash (String c "")
  else if (n =? 9)%N then String backslash "t"
  else if (n =? 10)%N then String backslash "n"
  else if (n =? 13)%N then String backslash "r"
  else if ((n <? 32) || (n =? 127) || ((128 <=? n) && (n <=? 160)) || (n =? 173))%N
  then String backslash
         (String "x" (String (hex_digit (n / 16)) (String (hex_digit (n mod 16)) "")))
  else String c "".

Fixpoint repr_body (q : ascii) (s : string) : string :=
  match s with
  | EmptyString => EmptyString
  | String c s' => repr_char q c +:+ repr_body q s'
  end.

Definition repr_str (s : string) : string :=
  let q := if str_contains "'" s && negb (str_contains (String dquote "") s)
           then dquote else "'"%char in
  String q (repr_body q s +:+ String q "").

(** [repr(v)]. *)
Fixpoint py_repr (v : pyval) : string :=
  match v with
  | PNone => "None"
  | PBool true => "True"
  | PBool false => "False"
  | PInt z => str_of_int z
  | PStr s => repr_str s
  | PList l => "[" +:+ String.concat ", " (map py_repr l) +:+ "]"
  | PDict d =>
      "{" +:+ String.concat ", "
                (map (fun kv => repr_str (fst kv) +:+ ": " +:+ py_repr (snd kv)) d)
          +:+ "}"
  end.

(** [str(v)]. *)
Definition py_str (v : pyval) : string :=
  match v with
  | PStr s => s
  | _ => py_repr v
  end.

(** *** Exceptions *)

(** The body of an HTTP response as [requests] exposes it: [json_body] is
    what [Response.json()] decodes, [None] when the body is not JSON. *)
Record Response : Type := mkResponse {
  status_code : Z;
  text : string;
  json_body : option pyval;
}.

(** The exceptions that the program raises or lets through. [response] of
    a [RequestException] is [e.response]: [None] when no HTTP response
    was received (connection error, timeout, undecodable body). The
    built-in exceptions are kept without their messages. *)
Inductive exn : Type :=
  | PluginError (msg : string)
  | RequestException (response : option Response)
  | IndexError
  | KeyError (key : string)
  | TypeError
  | ValueError
  | AttributeError.

Inductive result (A : Type) : Type :=
  | Return (a : A)
  | Raise (e : exn).
Arguments Return {A} a.
Arguments Raise {A} e.

(** *** The state of a run *)

Inductive level : Type := DEBUG | WARNING | ERROR.

(** A log record keeps the message and its arguments apart, as
    [logging] does. *)
Record LogRecord : Type := mkLog {
  log_level : level;
  log_msg : string;
  log_args : list pyval;
}.

(** One call of [requests.post]: [cert] is the [cert=(cert, key)] keyword,
    [None] when the keyword is not passed. *)
Record Request : Type := mkRequest {
  post_url : string;
  post_data : pydict;
  post_cert : option (string * string);
}.

Abbreviation ref := nat.

Record State : Type := mkState {
  heap : list pydict;
  log : list LogRecord;
  posted : list Request;
}.

Definition M (A : Type) : Type := State -> result A * State.

#[global] Instance M_ret : MRet M := fun A a st => (Return a, st).

#[global] Instance M_bind : MBind M := fun A B k m st =>
  match m st with
  | (Return a, st') => k a st'
  | (Raise e, st') => (Raise e, st')
  end.

Definition raise {A} (e : exn) : M A := fun st => (Raise e, st).

(** Lifts a pure computation that may raise. *)
Definition lift {A} (r : result A) : M A := fun st => (r, st).

(** [try: body except ...: handler]: [handler e] is [None] when no
    [except] clause matches [e]. *)
Definition try_except {A} (body : M A) (handler : exn -> option (M A)) : M A :=
  fun st =>
    match body st with
    | (Return a, st') => (Return a, st')
    | (Raise e, st') =>
        match handler e with
        | Some h => h st'
        | None => (Raise e, st')
        end
    end.

(** A new dict object; its reference is the next free slot of the heap. *)
Definition alloc (d : pydict) : M ref := fun st =>
  (Return (length (heap st)),
   mkState (heap st ++ [d]) (log st) (posted st)).

(** The items of the dict at [r]. *)
Definition deref (r : ref) : M pydict := fun st =>
  (Return (default [] (heap st !! r)), st).

(** [r[k] = v], in place. *)
Definition setitem (r : ref) (k : string) (v : pyval) : M unit := fun st =>
  (Return tt,
   mkState (alter (dict_set k v) r (heap st)) (log st) (posted st)).

(** [logger.<level>(msg, *args)]. *)
Definition logger (lv : level) (msg : string) (args : list pyval) : M unit :=
  fun st =>
    (Return tt,
     mkState (heap st) (log st ++ [mkLog lv msg args]) (posted st)).

Definition empty_state : State := mkState [] [] [].

(** *** [str.format]

    Replacement fields [{}] (numbered as they come) and [{n}] (numbered
    by hand), and the doubled braces; these are the fields that the
    templates of the program use. Any other field name is looked up among
    the keyword arguments, of which there are none. *)

Inductive fmt_mode : Type :=
  | InText
  | AfterOpen
  | InField (name : string)
  | AfterClose.

Inductive numbering : Type :=
  | Unnumbered
  | Automatic (next : nat)
  | Manual.

Definition all_digits (s : string) : bool :=
  forallb (fun c => ((48 <=? N_of_ascii c) && (N_of_ascii c <=? 57))%N)
          (list_ascii_of_string s).

(** The argument that the field [name] stands for, and the numbering
    after it. *)
Definition format_field (name : string) (num : numbering) (args : list pyval)
  : result (string * numbering) :=
  match name with
  | EmptyString =>
      match num with
      | Manual => Raise ValueError
      | Unnumbered =>
          match args !! 0%nat with
          | Some v => Return (py_str v, Automatic 1)
          | None => Raise IndexError
          end
      | Automatic i =>
          match args !! i with
          | Some v => Return (py_str v, Automatic (S i))
          | None => Raise IndexError
          end
      end
  | String _ _ =>
      if all_digits name then
        match num with
        | Automatic _ => Raise ValueError
        | _ =>
            match NilEmpty.uint_of_string name with
            | Some d =>
                match args !! Nat.of_uint d with
                | Some v => Return (py_str v, Manual)
                | None => Raise IndexError
                end
            | None => Raise ValueError
            end
        end
      else Raise (KeyError name)
  end.

Fixpoint format_from (mode : fmt_mode) (num : numbering) (args : list pyval)
    (tmpl : string) : result string :=
  match tmpl with
  | EmptyString =>
      match mode with
      | InText => Return EmptyString
      | _ => Raise ValueError
      end
  | String c tmpl' =>
      let emit (x : string) (num' : numbering) :=
        match format_from InText num' args tmpl' with
        | Return r => Return (x +:+ r)
        | Raise e => Raise e
        end in
      match mode with
      | InText =>
          if Ascii.eqb c "{" then format_from AfterOpen num args tmpl'
          else if Ascii.eqb c "}" then format_from AfterClose num args tmpl'
          else emit (String c "") num
      | AfterOpen =>
          if Ascii.eqb c "{" then emit "{" num
          else if Ascii.eqb c "}" then
            match format_field "" num args with
            | Return (x, num') => emit x num'
            | Raise e => Raise e
            end
          else format_from (InField (String c "")) num args tmpl'
      | InField name =>
          if Ascii.eqb c "}" then
            match format_field name num args with
            | Return (x, num') => emit x num'
            | Raise e => Raise e
            end
          else if Ascii.eqb c "{" then Raise ValueError
          else format_from (InField (name +:+ String c "")) num args tmpl'
      | AfterClose =>
          if Ascii.eqb c "}" then emit "}" num
          else Raise ValueError
      end
  end.

(** [tmpl.format( *args )]. *)
Definition str_format (tmpl : string) (args : list pyval) : result string :=
  format_from InText Unnumbered args tmpl.

End Py.

(** ** The [json] module of the standard library

    [dumps] with its default options ([ensure_ascii], separators [", "]
    and [": "], keys in insertion order) and [loads], on the values of
    [pyval]. *)

Module Json.
Import Py.

(** One character of a string under [ensure_ascii]: the short escapes,
    printable ASCII as it is, everything else as [\u00xx]. *)
Definition escape_char (c : ascii) : string :=
  let n := N_of_ascii c in
  if Ascii.eqb c dquote then String backslash (String dquote "")
  else if Ascii.eqb c backslash then String backslash (String backslash "")
  else if (n =? 8)%N then String backslash "b"
  else if (n =? 12)%N then String backslash "f"
  else if (n =? 10)%N then String backslash "n"
  else if (n =? 13)%N then String backslash "r"
  else if (n =? 9)%N then String backslash "t"
  else if ((32 <=? n) && (n <=? 126))%N then String c ""
  else String backslash
         (String "u" (String "0" (String "0"
           (String (hex_digit (n / 16)) (String (hex_digit (n mod 16)) ""))))).

Fixpoint escape_body (s : string) : string :=
  match s with
  | EmptyString => EmptyString
  | String c s' => escape_char c +:+ escape_body s'
  end.

Definition encode_str (s : string) : string :=
  String dquote (escape_body s +:+ String dquote "").

Definition encode_int (z : Z) : string := str_of_int z.

(** [json.dumps(v)]. *)
Fixpoint dumps (v : pyval) : string :=
  match v with
  | PNone => "null"
  | PBool true => "true"
  | PBool false => "false"
  | PInt z => encode_int z
  | PStr s => encode_str s
  | PList l => "[" +:+ String.concat ", " (map dumps l) +:+ "]"
  | PDict d =>
      "{" +:+ String.concat ", "
                (map (fun kv => encode_str (fst kv) +:+ ": " +:+ dumps (snd kv)) d)
          +:+ "}"
  end.

(** *** Decoding *)

Definition is_ws (c : ascii) : bool :=
  Ascii.eqb c " " || Ascii.eqb c "009" || Ascii.eqb c "010" || Ascii.eqb c "013".

Fixpoint skip_ws (s : string) : string :=
  match s with
  | String c s' => if is_ws c then skip_ws s' else s
  | EmptyString => EmptyString
  end.

Definition hex_value (c : ascii) : option N :=
  let n := N_of_ascii c in
  if ((48 <=? n) && (n <=? 57))%N then Some (n - 48)%N
  else if ((97 <=? n) && (n <=? 102))%N then Some (n - 87)%N
  else if ((65 <=? n) && (n <=? 70))%N then Some (n - 55)%N
  else None.

Definition hex4 (a b c d : ascii) : option N :=
  match hex_value a, hex_value b, hex_value c, hex_value d with
  | Some x, Some y, Some z, Some w => Some (((x * 16 + y) * 16 + z) * 16 + w)%N
  | _, _, _, _ => None
  end.

(** The character that follows a backslash, [u] apart. *)
Definition unescape (e : ascii) : option ascii :=
  if Ascii.eqb e dquote then Some dquote
  else if Ascii.eqb e backslash then Some backslash
  else if Ascii.eqb e "/" then Some "/"%char
  else if Ascii.eqb e "b" then Some "008"%char
  else if Ascii.eqb e "f" then Some "012"%char
  else if Ascii.eqb e "n" then Some "010"%char
  else if Ascii.eqb e "r" then Some "013"%char
  else if Ascii.eqb e "t" then Some "009"%char
  else None.

(** The rest of a string literal after its opening quote: the decoded
    string and what follows the closing quote. A raw control character
    is an error; so is, here, an escape above [ÿ], whose character
    the strings of this development do not have. *)
Fixpoint scanstring (s : string) : option (string * string) :=
  match s with
  | EmptyString => None
  | String c s' =>
      if Ascii.eqb c dquote then Some (EmptyString, s')
      else if Ascii.eqb c backslash then
        match s' with
        | String e s'' =>
            if Ascii.eqb e "u" then
              match s'' with
              | String h1 (String h2 (String h3 (String h4 r))) =>
                  match hex4 h1 h2 h3 h4 with
                  | Some n =>
                      if (n <? 256)%N then
                        match scanstring r with
                        | Some (t, rest) => Some (String (ascii_of_N n) t, rest)
                        | None => None
                        end
                      else None
                  | None => None
                  end
              | _ => None
              end
            else
              match unescape e with
              | Some x =>
                  match scanstring s'' with
                  | Some (t, rest) => Some (String x t, rest)
                  | None => None
                  end
              | None => None
              end
        | EmptyString => None
        end
      else if (N_of_ascii c <? 32)%N then None
      else
        match scanstring s' with
        | Some (t, rest) => Some (String c t, rest)
        | None => None
        end
  end.

Definition is_digit (c : ascii) : bool :=
  ((48 <=? N_of_ascii c) && (N_of_ascii c <=? 57))%N.

(** The longest run of digits at the head of [s], and the rest. *)
Fixpoint scan_digits (s : string) : string * string :=
  match s with
  | String c s' =>
      if is_digit c then
        let '(ds, rest) := scan_digits s' in (String c ds, rest)
      else (EmptyString, s)
  | EmptyString => (EmptyString, EmptyString)
  end.

Definition starts_fraction (s : string) : bool :=
  match s with
  | String c _ => Ascii.eqb c "." || Ascii.eqb c "e" || Ascii.eqb c "E"
  | EmptyString => false
  end.

(** An integer literal, without sign. A literal with a leading zero, a
    fraction or an exponent gives [None]: the first is an error in every
    context, the others denote a [float]. *)
Definition scan_nat (s : string) : option (Z * string) :=
  let '(ds, rest) := scan_digits s in
  match ds with
  | EmptyString => None
  | String "0" (String _ _) => None
  | _ =>
      if starts_fraction rest then None
      else match NilEmpty.uint_of_string ds with
           | Some d => Some (Z.of_uint d, rest)
           | None => None
           end
  end.

Fixpoint strip_prefix (pre s : string) : option string :=
  match pre, s with
  | EmptyString, _ => Some s
  | String a pre', String b s' =>
      if Ascii.eqb a b then strip_prefix pre' s' else None
  | String _ _, EmptyString => None
  end.

Definition expect (lit : string) (v : pyval) (s : string)
  : option (pyval * string) :=
  match strip_prefix lit s with
  | Some rest => Some (v, rest)
  | None => None
  end.

(** [pairs] as [dict(pairs)] builds it: a later pair with the key of an
    earlier one replaces its value. *)
Definition dict_of_pairs (pairs : list (string * pyval)) : pydict :=
  fold_left (fun acc kv => dict_set (fst kv) (snd kv) acc) pairs [].

(** The scanner: [scan_once] reads one value; [scan_array] reads the
    elements of an array from the first one on, [scan_object] the pairs
    of an object from the opening quote of a key on. [acc] holds what
    was read so far, last first. *)
Fixpoint scan_once (fuel : nat) (s : string) : option (pyval * string) :=
  match fuel with
  | O => None
  | S fuel =>
      match s with
      | EmptyString => None
      | String c s' =>
          if Ascii.eqb c dquote then
            match scanstring s' with
            | Some (t, rest) => Some (PStr t, rest)
            | None => None
            end
          else if Ascii.eqb c "[" then
            match skip_ws s' with
            | String "]" rest => Some (PList [], rest)
            | s1 => scan_array fuel s1 []
            end
          else if Ascii.eqb c "{" then
            match skip_ws s' with
            | String "}" rest => Some (PDict [], rest)
            | s1 => scan_object fuel s1 []
            end
          else if Ascii.eqb c "n" then expect "null" PNone s
          else if Ascii.eqb c "t" then expect "true" (PBool true) s
          else if Ascii.eqb c "f" then expect "false" (PBool false) s
          else if Ascii.eqb c "-" then
            match scan_nat s' with
            | Some (z, rest) => Some (PInt (- z), rest)
            | None => None
            end
          else
            match scan_nat s with
            | Some (z, rest) => Some (PInt z, rest)
            | None => None
            end
      end
  end
with scan_array (fuel : nat) (s : string) (acc : list pyval)
  : option (pyval * string) :=
  match fuel with
  | O => None
  | S fuel =>
      match scan_once fuel s with
      | Some (v, s1) =>
          match skip_ws s1 with
          | String "]" rest => Some (PList (rev (v :: acc)), rest)
          | String "," s2 => scan_array fuel (skip_ws s2) (v :: acc)
          | _ => None
          end
      | None => None
      end
  end
with scan_object (fuel : nat) (s : string) (acc : list (string * pyval))
  : option (pyval * string) :=
  match fuel with
  | O => None
  | S fuel =>
      match s with
      | String c s0 =>
          if Ascii.eqb c dquote then
            match scanstring s0 with
            | Some (k, s1) =>
                match skip_ws s1 with
                | String ":" s2 =>
                    match scan_once fuel (skip_ws s2) with
                    | Some (v, s3) =>
                        match skip_ws s3 with
                        | String "}" rest =>
                            Some (PDict (dict_of_pairs (rev ((k, v) :: acc))), rest)
                        | String "," s4 =>
                            scan_object fuel (skip_ws s4) ((k, v) :: acc)
                        | _ => None
                        end
                    | None => None
                    end
                | _ => None
                end
            | None => None
            end
          else None
      | EmptyString => None
      end
  end.

(** [json.loads(s)]: one value, with white space around it and nothing
    else. *)
Definition loads (s : string) : option pyval :=
  match scan_once (S (String.length s)) (skip_ws s) with
  | Some (v, rest) =>
      match skip_ws rest with
      | EmptyString => Some v
      | String _ _ => None
      end
  | None => None
  end.

End Json.


(** ** The world outside: the file system and the network *)

Module Requests.
Import Py.

(** What [requests.post] does with a request: it raises a
    [RequestException], with or without a response attached, or it
    returns the response of the server. *)
Inductive PostOutcome : Type :=
  | PostRaises (response : option Response)
  | PostReturns (r : Response).

(** [path_exists] is [os.path.exists]; [network] answers the POSTs. *)
Record World : Type := mkWorld {
  path_exists : string -> bool;
  network : Request -> PostOutcome;
}.

(** [requests.post(url, data=data)] and
    [requests.post(url, data=data, cert=cert)]. *)
Definition post (w : World) (req : Request) : M Response := fun st =>
  let st' := mkState (heap st) (log st) (posted st ++ [req]) in
  match network w req with
  | PostReturns r => (Return r, st')
  | PostRaises e => (Raise (RequestException e), st')
  end.

(** [response.raise_for_status()]: an [HTTPError] carrying the response
    for the statuses 400 to 599. *)
Definition raise_for_status (r : Response) : M unit :=
  if ((400 <=? status_code r) && (status_code r <? 600))%Z
  then raise (RequestException (Some r))
  else mret tt.

(** [response.json()]: a [JSONDecodeError], which carries no response,
    when the body is not JSON. The exceptions of other kinds that
    decoding can end in (a [RecursionError] on a body nested too deep, a
    [ValueError] on a number with too many digits) are not modelled. *)
Definition response_json (r : Response) : M pyval :=
  match json_body r with
  | Some v => mret v
  | None => raise (RequestException None)
  end.

(** [e.response.status_code] and [e.response.text] of a caught
    [RequestException]: an [AttributeError] when [e.response] is [None]. *)
Definition response_attr {A} (response : option Response) (attr : Response -> A)
  : M A :=
  match response with
  | Some r => mret (attr r)
  | None => raise AttributeError
  end.

End Requests.

(** ** [_HttpClient] *)

Module HttpClient.
Import Py Requests.

(** [_HttpClient.send]. The guard reads [cert] and [key] only where both
    are strings, as the short-circuit [and] does. *)
Definition send (w : World) (url : string) (data : pydict)
    (cert key : option string) : M pyval :=
  response ← match cert, key with
             | Some c, Some k =>
                 if truthy cert && truthy key
                    && path_exists w c && path_exists w k
                 then post w (mkRequest url data (Some (c, k)))
                 else post w (mkRequest url data None)
             | _, _ => post w (mkRequest url data None)
             end;
  raise_for_status response;;
  response_json response.

End HttpClient.

(** ** [_RegRuClient] *)

Module RegRuClient.
Import Py Json Requests.

Record _RegRuClient : Type := mkClient {
  cert : option string;
  key : option string;
  username : option string;
  password : option string;
  options : pydict;
}.

(** [_RegRuClient.__init__]. *)
Definition __init__ (username password cert key : option string)
  : _RegRuClient :=
  {| cert := cert;
     key := key;
     username := username;
     password := password;
     options := [("input_format", PStr "json")] |}.

Definition add_txt_url : string := "https://api.reg.ru/api/regru2/zone/add_txt".
Definition remove_record_url : string :=
  "https://api.reg.ru/api/regru2/zone/remove_record".

(** [_RegRuClient._create_params]: [input_data] is the caller's dict,
    by reference. *)
Definition _create_params (self : _RegRuClient) (domain : string)
    (input_data : ref) : M pydict :=
  let pieces := str_split "." domain in
  setitem input_data "subdomain"
    (PStr (str_join "." (py_slice None (Some (-2)%Z) pieces)));;
  setitem input_data "domains"
    (PList [PDict [("dname",
                    PStr (str_join "." (py_slice (Some (-2)%Z) None pieces)))]]);;
  setitem input_data "output_content_type" (PStr "json");;
  setitem input_data "username" (of_option (username self));;
  setitem input_data "password" (of_option (password self));;
  payload ← deref input_data;
  let data := dict_copy (options self) in
  let data := dict_update data [("input_data", PStr (dumps (PDict payload)))] in
  mret data.

(** ['result' not in response or response['result'] != 'success']. *)
Definition is_str (v : pyval) (s : string) : bool :=
  match v with
  | PStr t => String.eqb t s
  | _ => false
  end.

(** ['result' in response]: a key of a dict, an element of a list, a
    part of a string; a [TypeError] on anything else. *)
Definition contains_result (response : pyval) : result bool :=
  match response with
  | PDict d => Return (bool_decide (is_Some (dict_get "result" d)))
  | PList l => Return (existsb (fun x => is_str x "result") l)
  | PStr s => Return (str_contains "result" s)
  | _ => Raise TypeError
  end.

(** [response['result']]. *)
Definition get_result (response : pyval) : result pyval :=
  match response with
  | PDict d =>
      match dict_get "result" d with
      | Some v => Return v
      | None => Raise (KeyError "result")
      end
  | _ => Raise TypeError
  end.

Definition unsuccessful (response : pyval) : M bool :=
  present ← lift (contains_result response);
  if negb present then mret true
  else
    v ← lift (get_result response);
    mret (negb (is_str v "success")).

(** [_RegRuClient.add_txt_record]. *)
Definition add_txt_record (w : World) (self : _RegRuClient)
    (record_name record_content : string) : M unit :=
  input_data ← alloc [("text", PStr record_content)];
  data ← _create_params self record_name input_data;
  response ←
    try_except
      (logger DEBUG "Attempting to add record: %s" [PDict data];;
       HttpClient.send w add_txt_url data (cert self) (key self))
      (fun e =>
         match e with
         | RequestException r =>
             Some (code ← response_attr r status_code;
                   body ← response_attr r text;
                   logger ERROR "Encountered error adding TXT record: %d %s"
                     [PInt code; PStr body];;
                   code ← response_attr r status_code;
                   msg ← lift (str_format
                                 "Error communicating with the Reg.ru API: {0}"
                                 [PInt code]);
                   raise (PluginError msg))
         | _ => None
         end);
  bad ← unsuccessful response;
  if (bad : bool) then
    logger ERROR "Encountered error adding TXT record: %s" [response];;
    msg ← lift (str_format "Error communicating with the Reg.ru API: {0}"
                  [response]);
    raise (PluginError msg)
  else
    logger DEBUG "Successfully added TXT record" [].

(** [_RegRuClient.del_txt_record]. *)
Definition del_txt_record (w : World) (self : _RegRuClient)
    (record_name record_content : string) : M unit :=
  input_data ← alloc [("record_type", PStr "TXT");
                      ("content", PStr record_content)];
  data ← _create_params self record_name input_data;
  response ←
    try_except
      (logger DEBUG "Attempting to delete record: %s" [PDict data];;
       r ← HttpClient.send w remove_record_url data (cert self) (key self);
       mret (Some r))
      (fun e =>
         match e with
         | RequestException r =>
             Some (code ← response_attr r status_code;
                   body ← response_attr r text;
                   logger WARNING "Encountered error deleting TXT record: %d %s"
                     [PInt code; PStr body];;
                   mret None)
         | _ => None
         end);
  match response with
  | None => mret tt
  | Some response =>
      bad ← unsuccessful response;
      if (bad : bool) then
        logger WARNING "Encountered error deleting TXT record: %s" [response]
      else
        logger DEBUG "Successfully deleted TXT record." []
  end.

End RegRuClient.

(** ** [Authenticator] *)

Module Authenticator.
Import Py Requests RegRuClient.

(** A [CredentialsConfiguration]: the file it was read from and its
    variables. *)
Record CredentialsConfiguration : Type := mkCredentials {
  confobj_filename : string;
  variables : gmap string string;
}.

(** [credentials.conf(var)]: [None] for a variable that the file does
    not set, the string that it sets otherwise. A value that the file
    writes with a comma, which [ConfigObj] reads as a list, is not
    modelled. *)
Definition conf (credentials : CredentialsConfiguration) (var : string)
  : option string :=
  variables credentials !! var.

(** [Authenticator._validate_credentials]. The second guard reads [cert]
    and [key] only where both are strings, as the short-circuit [and]
    does. *)
Definition _validate_credentials (w : World)
    (credentials : CredentialsConfiguration) : M unit :=
  let password := conf credentials "password" in
  let username := conf credentials "username" in
  let cert := conf credentials "cert" in
  let key := conf credentials "key" in
  (if negb (truthy password) || negb (truthy username) then
     msg ← lift (str_format
                   "{}: Either password and username are required. (see {})"
                   [PStr (confobj_filename credentials)]);
     raise (PluginError msg)
   else mret tt);;
  match cert, key with
  | Some c, Some k =>
      if truthy cert && truthy key
         && (negb (path_exists w c) || negb (path_exists w k))
      then
        msg ← lift (str_format "{}: Either cert and key not found. (see {})"
                      [PStr (confobj_filename credentials)]);
        raise (PluginError msg)
      else mret tt
  | _, _ => mret tt
  end.

(** [Authenticator._get_regru_client]. *)
Definition _get_regru_client (credentials : CredentialsConfiguration)
  : _RegRuClient :=
  __init__ (conf credentials "username") (conf credentials "password")
           (conf credentials "cert") (conf credentials "key").

(** [Authenticator._perform]. *)
Definition _perform (w : World) (credentials : CredentialsConfiguration)
    (domain validation_name validation : string) : M unit :=
  add_txt_record w (_get_regru_client credentials) validation_name validation.

(** [Authenticator._cleanup]. *)
Definition _cleanup (w : World) (credentials : CredentialsConfiguration)
    (domain validation_name validation : string) : M unit :=
  del_txt_record w (_get_regru_client credentials) validation_name validation.

End Authenticator.

(** ** Loading the credentials

    [CredentialsConfiguration.require] and
    [DNSAuthenticator._configure_credentials] of
    [certbot.plugins.dns_common], which [Authenticator._setup_credentials]
    calls with the validator. The file is taken as read: [credentials]
    is what [ConfigObj] made of it. [mapper] is the authenticator's
    [dest], which puts the name of the plugin before the name of a
    variable. *)

Module Setup.
Import Py Requests Authenticator.









End Setup.

Import Py Json Requests RegRuClient Authenticator.
Import Setup.

(** * The vocabulary of the statements *)

(** The spec's words: all labels except the last two, and the last two
    labels (what there is of them when the name has fewer). *)
Definition all_but_last_two {A} (l : list A) : list A := take (length l - 2) l.
Definition last_two {A} (l : list A) : list A := drop (length l - 2) l.

(** What [_create_params] makes of the items [d] of the caller's dict. *)
Definition params_payload (self : _RegRuClient) (domain : string) (d : pydict)
  : pydict :=
  let pieces := str_split "." domain in
  dict_set "password" (of_option (password self))
    (dict_set "username" (of_option (username self))
       (dict_set "output_content_type" (PStr "json")
          (dict_set "domains"
             (PList [PDict [("dname", PStr (str_join "." (last_two pieces)))]])
             (dict_set "subdomain"
                (PStr (str_join "." (all_but_last_two pieces))) d)))).

(** The form that goes into the body of the POST. *)
Definition params_form (self : _RegRuClient) (payload : pydict) : pydict :=
  dict_update (options self) [("input_data", PStr (dumps (PDict payload)))].

(** The keys that [_create_params] sets. *)
Definition injected_keys : list string :=
  ["subdomain"; "domains"; "output_content_type"; "username"; "password"].

(** The [cert=] keyword of the POST that [send] makes. *)
Definition client_cert (w : World) (cert key : option string)
  : option (string * string) :=
  match cert, key with
  | Some c, Some k =>
      if truthy cert && truthy key && path_exists w c && path_exists w k
      then Some (c, k) else None
  | _, _ => None
  end.

(** What [send] returns or raises, given what the network does. *)
Definition send_result (o : PostOutcome) : result pyval :=
  match o with
  | PostRaises e => Raise (RequestException e)
  | PostReturns r =>
      if ((400 <=? status_code r) && (status_code r <? 600))%Z
      then Raise (RequestException (Some r))
      else match json_body r with
           | Some v => Return v
           | None => Raise (RequestException None)
           end
  end.

(** The dict that [add_txt_record] builds and fills in. *)
Definition add_payload (self : _RegRuClient) (record_name record_content : string)
  : pydict :=
  params_payload self record_name [("text", PStr record_content)].

(** The same for [del_txt_record]. *)
Definition del_payload (self : _RegRuClient) (record_name record_content : string)
  : pydict :=
  params_payload self record_name
    [("record_type", PStr "TXT"); ("content", PStr record_content)].

(** The POST of a client for [payload]. *)
Definition request_of (w : World) (self : _RegRuClient) (url : string)
    (payload : pydict) : Request :=
  mkRequest url (params_form self payload) (client_cert w (cert self) (key self)).

(** The verdict on a decoded response. *)
Definition verdict (response : pyval) : result bool :=
  match contains_result response with
  | Raise e => Raise e
  | Return present =>
      if negb present then Return true
      else match get_result response with
           | Return v => Return (negb (is_str v "success"))
           | Raise e => Raise e
           end
  end.

(** The envelope [d] has a [result] field that is the string
    ["success"]. *)
Definition result_is_success (d : pydict) : bool :=
  match dict_get "result" d with
  | Some v => is_str v "success"
  | None => false
  end.

(** What the transport returns or raises when the client sends it
    [payload] for [url]. *)
Definition transport_answer (w : World) (self : _RegRuClient) (url : string)
    (payload : pydict) : result pyval :=
  (HttpClient.send w url (params_form self payload) (cert self) (key self)
     empty_state).1.

(** [add_txt_record] fails with a [PluginError] whose message carries
    both the status and the body of [r]. *)
Definition add_fails_carrying (w : World) (self : _RegRuClient)
    (record_name record_content : string) (st : State) (r : Response) : Prop :=
  exists msg,
    (add_txt_record w self record_name record_content st).1
      = Raise (PluginError msg) /\
    str_contains (str_of_int (status_code r)) msg = true /\
    str_contains (text r) msg = true.

(** A response with the status 500 and a body that is not JSON. *)
Definition server_error : Response :=
  mkResponse 500 "Internal Server Error" None.

(** A world without files, whose network answers every POST by [o]. *)
Definition failing_world (o : PostOutcome) : World :=
  mkWorld (fun _ => false) (fun _ => o).

(** The credentials give exactly one of [cert] and [key]. *)
Definition exactly_one_of_cert_key (credentials : CredentialsConfiguration)
  : Prop :=
  truthy (conf credentials "cert") <> truthy (conf credentials "key").

(** They give both, and one of the two files does not exist. *)
Definition cert_or_key_not_found (w : World)
    (credentials : CredentialsConfiguration) : Prop :=
  exists c k,
    conf credentials "cert" = Some c /\ conf credentials "key" = Some k /\
    c <> "" /\ k <> "" /\
    (path_exists w c = false \/ path_exists w k = false).

(** Credentials with a user name, a password and a certificate, and no
    key. *)
Definition lone_cert : CredentialsConfiguration :=
  mkCredentials "/usr/local/etc/letsencrypt/regru.ini"
    (<[ "cert" := "/usr/local/etc/ssl/client.crt" ]>
       (<[ "username" := "user" ]> {[ "password" := "secret" ]})).

(** What may follow a number: nothing, or a character other than a
    digit, a point and an exponent mark. *)
Definition ends_number (rest : string) : bool :=
  match rest with
  | EmptyString => true
  | String c _ =>
      negb (is_digit c || Ascii.eqb c "." || Ascii.eqb c "e" || Ascii.eqb c "E")
  end.

(** No dict of the value has a key twice. *)
Fixpoint wf (v : pyval) : bool :=
  match v with
  | PList l => forallb wf l
  | PDict d =>
      bool_decide (NoDup (map fst d)) && forallb (fun kv => wf (snd kv)) d
  | _ => true
  end.

(** The number of nodes of a value, each element of a list and each pair
    of a dict counted once more: the fuel that reading it back takes. *)
Fixpoint size (v : pyval) : nat :=
  match v with
  | PList l => S (list_sum (map (fun x => S (size x)) l))
  | PDict d => S (list_sum (map (fun kv => S (size (snd kv))) d))
  | _ => 1
  end.

(** The characters that the text of a value may start with. *)
Definition is_value_head (c : ascii) : bool :=
  Ascii.eqb c dquote || Ascii.eqb c "[" || Ascii.eqb c "{" || Ascii.eqb c "n"
  || Ascii.eqb c "t" || Ascii.eqb c "f" || Ascii.eqb c "-" || is_digit c.

Definition starts_value (s : string) : Prop :=
  exists c t, s = String c t /\ is_value_head c = true.

(** [v] is read back from its text, whatever follows. *)
Definition reads_back (v : pyval) : Prop :=
  forall fuel rest,
    size v <= fuel -> ends_number rest = true -> wf v = true ->
    scan_once fuel (dumps v +:+ rest) = Some (v, rest).

(** The share of the elements, of the pairs, in the size of a list, of
    a dict. *)
Definition items_size (l : list pyval) : nat :=
  list_sum (map (fun x => S (size x)) l).

Definition pairs_size (d : list (string * pyval)) : nat :=
  list_sum (map (fun kv => S (size (snd kv))) d).

(** The text of one pair of a dict. *)
Definition dumps_item (kv : string * pyval) : string :=
  encode_str (fst kv) +:+ ": " +:+ dumps (snd kv).

(** A string of printable ASCII characters, from the space to the
    tilde. *)
Definition is_printable_ascii (c : ascii) : bool :=
  ((32 <=? N_of_ascii c) && (N_of_ascii c <=? 126))%N.

Definition printable (s : string) : bool :=
  forallb is_printable_ascii (list_ascii_of_string s).

(** The credentials pass both checks of [_validate_credentials]. *)
Definition credentials_accepted (w : World)
    (credentials : CredentialsConfiguration) : bool :=
  truthy (conf credentials "password") && truthy (conf credentials "username")
  && match conf credentials "cert", conf credentials "key" with
     | Some c, Some k =>
         negb (truthy (Some c) && truthy (Some k)
               && (negb (path_exists w c) || negb (path_exists w k)))
     | _, _ => true
     end.

(** Truth value of a value, as [if] takes it: [None], [False], [0] and
    what is empty are false. *)
Definition value_truthy (v : pyval) : bool :=
  match v with
  | PNone => false
  | PBool b => b
  | PInt z => negb (Z.eqb z 0)
  | PStr s => negb (String.eqb s "")
  | PList l => negb (Nat.eqb (length l) 0)
  | PDict d => negb (Nat.eqb (length d) 0)
  end.

(** What is raised is a [RequestException], a [PluginError]. *)
Definition raises_request_exception {A} (r : result A) : bool :=
  match r with
  | Raise (RequestException _) => true
  | _ => false
  end.

Definition raises_plugin_error {A} (r : result A) : bool :=
  match r with
  | Raise (PluginError _) => true
  | _ => false
  end.

(** * Properties *)

(** ** The model on small inputs *)

Example str_split_name :
  str_split "." "_acme-challenge.example.com"
  = ["_acme-challenge"; "example"; "com"].
Proof. reflexivity. Qed.

Example str_split_edges :
  str_split "." "" = [""] /\ str_split "." "a..b." = ["a"; ""; "b"; ""].
Proof. split; reflexivity. Qed.

Example py_slice_one_label :
  py_slice None (Some (-2)%Z) ["localhost"] = [] /\
  py_slice (Some (-2)%Z) None ["localhost"] = ["localhost"].
Proof. split; reflexivity. Qed.

Example dict_set_keeps_place :
  dict_set "a" (PInt 3) [("a", PInt 1); ("b", PInt 2)]
  = [("a", PInt 3); ("b", PInt 2)] /\
  dict_set "c" (PInt 3) [("a", PInt 1); ("b", PInt 2)]
  = [("a", PInt 1); ("b", PInt 2); ("c", PInt 3)].
Proof. split; reflexivity. Qed.

Example str_format_fields :
  str_format "{0} and {0}" [PInt 500] = Return "500 and 500" /\
  str_format "{}, {}" [PStr "a"; PNone] = Return "a, None" /\
  str_format "{}, {}" [PStr "a"] = Raise IndexError /\
  str_format "{0}, {}" [PStr "a"; PStr "b"] = Raise ValueError.
Proof. repeat split; reflexivity. Qed.

Example py_str_envelope :
  py_str (PDict [("result", PStr "error"); ("codes", PList [PInt 7; PNone])])
  = "{'result': 'error', 'codes': [7, None]}".
Proof. reflexivity. Qed.

Example dumps_list :
  dumps (PList [PInt (-12); PNone; PBool true; PList []; PDict []])
  = "[-12, null, true, [], {}]".
Proof. reflexivity. Qed.

Example escape_body_chars :
  escape_body (String "233" (String "010" (String backslash "a")))
  = String backslash "u00e9" +:+ String backslash "n"
    +:+ String backslash (String backslash "a").
Proof. reflexivity. Qed.

Example loads_white_space :
  loads " [1 , 2,[ ] ,{ }, false] "
  = Some (PList [PInt 1; PInt 2; PList []; PDict []; PBool false]).
Proof. reflexivity. Qed.

Example loads_rejects :
  loads "[1, 2" = None /\ loads "01" = None /\ loads "[1,]" = None /\
  loads "nul" = None /\ loads "1 2" = None.
Proof. repeat split; reflexivity. Qed.

(** A name of one label: no subdomain, and the label as [dname]. *)
Example create_params_one_label :
  heap (_create_params (__init__ (Some "user") (Some "secret") None None)
          "localhost" 0 (mkState [[("text", PStr "token")]] [] [])).2
  = [[("text", PStr "token"); ("subdomain", PStr "");
      ("domains", PList [PDict [("dname", PStr "localhost")]]);
      ("output_content_type", PStr "json");
      ("username", PStr "user"); ("password", PStr "secret")]].
Proof. reflexivity. Qed.

(** ** Dictionaries *)

Lemma dict_get_set_eq k v d : dict_get k (dict_set k v d) = Some v.
Proof.
  induction d as [|[k' v'] d IH]; simpl.
  - by rewrite String.eqb_refl.
  - destruct (String.eqb k' k) eqn:E; simpl; by rewrite E.
Qed.

Lemma dict_get_set_ne k k' v d :
  k <> k' -> dict_get k' (dict_set k v d) = dict_get k' d.
Proof.
  intros Hne. induction d as [|[k0 v0] d IH]; simpl.
  - destruct (String.eqb k k') eqn:E; [|done].
    apply String.eqb_eq in E. contradiction.
  - destruct (String.eqb k0 k) eqn:E; simpl.
    + apply String.eqb_eq in E. subst k0.
      destruct (String.eqb k k') eqn:E'; [|done].
      apply String.eqb_eq in E'. contradiction.
    + by rewrite IH.
Qed.

Lemma dict_keys_set_notin k v d :
  ~ In k (dict_keys d) -> dict_set k v d = d ++ [(k, v)].
Proof.
  unfold dict_keys.
  induction d as [|[k' v'] d IH]; simpl; [done|].
  intros Hin. destruct (String.eqb k' k) eqn:E.
  - apply String.eqb_eq in E. tauto.
  - f_equal. apply IH. tauto.
Qed.

(** ** Slices and labels *)

Lemma py_slice_to_minus_2 {A} (l : list A) :
  py_slice None (Some (-2)%Z) l = all_but_last_two l.
Proof.
  unfold py_slice, all_but_last_two, slice_bound. simpl.
  rewrite drop_0. f_equal. lia.
Qed.

Lemma py_slice_from_minus_2 {A} (l : list A) :
  py_slice (Some (-2)%Z) None l = last_two l.
Proof.
  unfold py_slice, last_two, slice_bound. simpl.
  replace (Z.to_nat (Z.max 0 (Z.min (Z.of_nat (length l)) (-2 + Z.of_nat (length l)))))
    with (length l - 2) by lia.
  apply take_ge. rewrite length_drop. lia.
Qed.

Lemma all_but_last_two_app {A} (pre : list A) a b :
  all_but_last_two (pre ++ [a; b]) = pre.
Proof.
  unfold all_but_last_two. rewrite length_app. simpl.
  replace (length pre + 2 - 2) with (length pre) by lia.
  by rewrite take_app_length.
Qed.

Lemma last_two_app {A} (pre : list A) a b :
  last_two (pre ++ [a; b]) = [a; b].
Proof.
  unfold last_two. rewrite length_app. simpl.
  replace (length pre + 2 - 2) with (length pre) by lia.
  by rewrite drop_app_length.
Qed.

(** ** The parameter builder *)

Lemma _create_params_run self domain r st :
  _create_params self domain r st =
    (Return (params_form self
               (default [] (params_payload self domain <$> heap st !! r))),
     mkState (alter (params_payload self domain) r (heap st))
             (log st) (posted st)).
Proof.
  unfold _create_params, mbind, M_bind, setitem, deref, mret, M_ret,
    params_form, dict_copy.
  cbn [heap log posted].
  rewrite py_slice_to_minus_2, py_slice_from_minus_2.
  rewrite !list_alter_alter_eq, list_lookup_alter_eq.
  reflexivity.
Qed.

Lemma _create_params_heap self domain r st :
  heap (_create_params self domain r st).2
  = alter (params_payload self domain) r (heap st).
Proof. by rewrite _create_params_run. Qed.

Lemma _create_params_result self domain r st d0 :
  heap st !! r = Some d0 ->
  (_create_params self domain r st).1
  = Return (params_form self (params_payload self domain d0)).
Proof. intros Hd0. by rewrite _create_params_run, Hd0. Qed.

Lemma params_payload_other self domain d k :
  ~ In k injected_keys ->
  dict_get k (params_payload self domain d) = dict_get k d.
Proof.
  unfold injected_keys. simpl. intros Hk. unfold params_payload.
  rewrite !dict_get_set_ne; [done|..]; intros <-; tauto.
Qed.

Lemma params_payload_subdomain self domain d :
  dict_get "subdomain" (params_payload self domain d)
  = Some (PStr (str_join "." (all_but_last_two (str_split "." domain)))).
Proof.
  unfold params_payload.
  rewrite !dict_get_set_ne by done. apply dict_get_set_eq.
Qed.

Lemma params_payload_domains self domain d :
  dict_get "domains" (params_payload self domain d)
  = Some (PList [PDict [("dname",
            PStr (str_join "." (last_two (str_split "." domain))))]]).
Proof.
  unfold params_payload.
  rewrite !dict_get_set_ne by done. apply dict_get_set_eq.
Qed.

Lemma params_payload_output_content_type self domain d :
  dict_get "output_content_type" (params_payload self domain d)
  = Some (PStr "json").
Proof.
  unfold params_payload.
  rewrite !dict_get_set_ne by done. apply dict_get_set_eq.
Qed.

Lemma params_payload_username self domain d :
  dict_get "username" (params_payload self domain d)
  = Some (of_option (username self)).
Proof.
  unfold params_payload.
  rewrite !dict_get_set_ne by done. apply dict_get_set_eq.
Qed.

Lemma params_payload_password self domain d :
  dict_get "password" (params_payload self domain d)
  = Some (of_option (password self)).
Proof. unfold params_payload. apply dict_get_set_eq. Qed.

(** C3. For every name, [_create_params] sets [subdomain] to all labels
    except the last two joined by ['.'] (the empty string when there are
    exactly two labels) and [domains] to the one-element list whose
    [dname] is the last two labels joined by ['.'];
    ["_acme-challenge.example.com"] gives ["_acme-challenge"] and
    ["example.com"]. *)
Theorem create_params_subdomain_dname self domain input_data st d0 :
  heap st !! input_data = Some d0 ->
  let pieces := str_split "." domain in
  let out := _create_params self domain input_data st in
  exists payload,
    heap out.2 !! input_data = Some payload /\
    out.1 = Return (params_form self payload) /\
    dict_get "subdomain" payload
      = Some (PStr (str_join "." (all_but_last_two pieces))) /\
    dict_get "domains" payload
      = Some (PList [PDict [("dname", PStr (str_join "." (last_two pieces)))]]) /\
    (forall pre a b, pieces = pre ++ [a; b] ->
       dict_get "subdomain" payload = Some (PStr (str_join "." pre)) /\
       dict_get "domains" payload
         = Some (PList [PDict [("dname", PStr (a +:+ "." +:+ b))]])) /\
    (length pieces = 2 -> dict_get "subdomain" payload = Some (PStr "")) /\
    (domain = "_acme-challenge.example.com" ->
       dict_get "subdomain" payload = Some (PStr "_acme-challenge") /\
       dict_get "domains" payload
         = Some (PList [PDict [("dname", PStr "example.com")]])).
Proof.
  intros Hd0 pieces out. subst out.
  rewrite _create_params_heap, (_create_params_result _ _ _ _ _ Hd0).
  exists (params_payload self domain d0).
  split; [by rewrite list_lookup_alter_eq, Hd0|].
  pose proof (params_payload_subdomain self domain d0) as Hsub.
  pose proof (params_payload_domains self domain d0) as Hdom.
  fold pieces in Hsub, Hdom.
  split; [done|]. split; [done|]. split; [done|].
  split; [|split].
  - intros pre a b Hp. rewrite Hsub, Hdom, Hp.
    by rewrite all_but_last_two_app, last_two_app.
  - intros Hlen. rewrite Hsub.
    destruct pieces as [|a [|b [|c l]]]; simpl in Hlen; try lia.
    reflexivity.
  - intros ->. rewrite Hsub, Hdom. subst pieces. split; reflexivity.
Qed.

Lemma create_params_subdomain_dname_witness :
  let st := mkState [[("text", PStr "token")]] [] [] in
  let self := __init__ (Some "user") (Some "secret") None None in
  exists payload,
    heap (_create_params self "_acme-challenge.example.com" 0 st).2 !! 0
      = Some payload /\
    dict_get "subdomain" payload = Some (PStr "_acme-challenge") /\
    dict_get "domains" payload
      = Some (PList [PDict [("dname", PStr "example.com")]]).
Proof.
  intros st self.
  destruct (create_params_subdomain_dname self "_acme-challenge.example.com"
              0 st [("text", PStr "token")] eq_refl)
    as (payload & Hheap & _ & _ & _ & _ & _ & Hex).
  exists payload. split; [exact Hheap|]. exact (Hex eq_refl).
Defined.

(** C10. [_create_params] changes the caller's dict in place: after the
    call the same object also holds the keys [subdomain], [domains],
    [output_content_type], [username] and [password], its other entries
    are as they were, and no other object is touched. *)
Theorem create_params_mutates_caller_dict self domain input_data st d0 :
  heap st !! input_data = Some d0 ->
  let out := _create_params self domain input_data st in
  exists payload,
    heap out.2 !! input_data = Some payload /\
    dict_get "subdomain" payload
      = Some (PStr (str_join "." (py_slice None (Some (-2)%Z)
                                    (str_split "." domain)))) /\
    dict_get "domains" payload
      = Some (PList [PDict [("dname",
                PStr (str_join "." (py_slice (Some (-2)%Z) None
                                      (str_split "." domain))))]]) /\
    dict_get "output_content_type" payload = Some (PStr "json") /\
    dict_get "username" payload = Some (of_option (username self)) /\
    dict_get "password" payload = Some (of_option (password self)) /\
    (forall k, ~ In k injected_keys -> dict_get k payload = dict_get k d0) /\
    (forall r, r <> input_data -> heap out.2 !! r = heap st !! r) /\
    length (heap out.2) = length (heap st).
Proof.
  intros Hd0 out. subst out. rewrite _create_params_heap.
  exists (params_payload self domain d0).
  rewrite py_slice_to_minus_2, py_slice_from_minus_2.
  repeat split.
  - by rewrite list_lookup_alter_eq, Hd0.
  - apply params_payload_subdomain.
  - apply params_payload_domains.
  - apply params_payload_output_content_type.
  - apply params_payload_username.
  - apply params_payload_password.
  - intros k Hk. by apply params_payload_other.
  - intros r Hr. by apply list_lookup_alter_ne.
  - apply length_alter.
Qed.

Lemma create_params_mutates_caller_dict_witness :
  let st := mkState [[("record_type", PStr "TXT"); ("content", PStr "token")]]
                    [] [] in
  let self := __init__ (Some "user") (Some "secret") None None in
  exists payload,
    heap (_create_params self "example.com" 0 st).2 !! 0 = Some payload /\
    dict_get "username" payload = Some (PStr "user") /\
    dict_get "content" payload = Some (PStr "token").
Proof.
  intros st self.
  destruct (create_params_mutates_caller_dict self "example.com" 0 st
              [("record_type", PStr "TXT"); ("content", PStr "token")] eq_refl)
    as (payload & Hheap & _ & _ & _ & Hu & _ & Hother & _).
  exists payload. split; [exact Hheap|]. split; [exact Hu|].
  rewrite Hother; [reflexivity|].
  unfold injected_keys. simpl. intros [H|[H|[H|[H|[H|[]]]]]]; discriminate H.
Defined.

(** ** The transport *)

Lemma send_run w url data cert key st :
  let req := mkRequest url data (client_cert w cert key) in
  HttpClient.send w url data cert key st
  = (send_result (network w req),
     mkState (heap st) (log st) (posted st ++ [req])).
Proof.
  unfold HttpClient.send, client_cert, send_result, mbind, M_bind.
  assert (Hpost : forall req,
    (let '(r, st') := post w req st in
     match r with
     | Return a => (raise_for_status a ;; response_json a) st'
     | Raise e => (Raise e, st')
     end)
    = (send_result (network w req),
       mkState (heap st) (log st) (posted st ++ [req]))).
  { intros req. unfold post, send_result, raise_for_status, response_json,
      mbind, M_bind, raise, mret, M_ret.
    destruct (network w req) as [e|r]; [done|].
    destruct ((400 <=? status_code r) && (status_code r <? 600))%Z; [done|].
    by destruct (json_body r). }
  unfold send_result in Hpost. cbn zeta.
  destruct cert as [c|], key as [k|]; try apply Hpost.
  destruct (truthy (Some c) && truthy (Some k) && path_exists w c
            && path_exists w k); apply Hpost.
Qed.

(** C8. [send] makes one POST; the certificate and key are attached to it
    exactly when both paths are given (not [None], not empty) and both
    files exist, and otherwise the POST carries no client certificate. *)
Theorem send_attaches_client_cert w url data cert key st :
  exists req,
    posted (HttpClient.send w url data cert key st).2 = posted st ++ [req] /\
    post_url req = url /\
    post_data req = data /\
    (forall c k,
       post_cert req = Some (c, k) <->
       cert = Some c /\ key = Some k /\ c <> "" /\ k <> "" /\
       path_exists w c = true /\ path_exists w k = true) /\
    (post_cert req = None <->
     ~ exists c k,
         cert = Some c /\ key = Some k /\ c <> "" /\ k <> "" /\
         path_exists w c = true /\ path_exists w k = true).
Proof.
  rewrite send_run. cbn zeta.
  exists (mkRequest url data (client_cert w cert key)).
  split; [done|]. split; [done|]. split; [done|].
  assert (Hiff : forall c k,
    client_cert w cert key = Some (c, k) <->
    cert = Some c /\ key = Some k /\ c <> "" /\ k <> "" /\
    path_exists w c = true /\ path_exists w k = true).
  { intros c k. unfold client_cert.
    destruct cert as [[|a c']|], key as [[|b k']|]; simpl;
      try (split; [discriminate | intros (? & ? & ? & ? & ? & ?); congruence]).
    destruct (path_exists w (String a c')) eqn:Ec,
             (path_exists w (String b k')) eqn:Ek; simpl.
    - split.
      + intros [= <- <-]. by rewrite Ec, Ek.
      + intros ([= <-] & [= <-] & _). done.
    - split; [discriminate|]. intros ([= <-] & [= <-] & _ & _ & _ & ?). congruence.
    - split; [discriminate|]. intros ([= <-] & [= <-] & _ & _ & ? & _). congruence.
    - split; [discriminate|]. intros ([= <-] & [= <-] & _ & _ & ? & _). congruence. }
  split; [exact Hiff|].
  cbn [post_cert]. split.
  - intros Hnone (c & k & Hck). apply Hiff in Hck. congruence.
  - intros Hnone.
    destruct (client_cert w cert key) as [[c k]|] eqn:E; [|done].
    exfalso. apply Hnone. exists c, k. by apply Hiff.
Qed.

(** ** The record manager *)

Lemma string_app_empty_r (s : string) : s +:+ "" = s.
Proof. induction s as [|c s IH]; simpl; [done|]. by rewrite IH. Qed.

Lemma string_app_assoc (a b c : string) : (a +:+ b) +:+ c = a +:+ (b +:+ c).
Proof. induction a as [|x a IH]; simpl; [done|]. by rewrite IH. Qed.

Lemma format_api_error (v : pyval) :
  str_format "Error communicating with the Reg.ru API: {0}" [v]
  = Return ("Error communicating with the Reg.ru API: " +:+ py_str v).
Proof.
  lazy -[py_str String.append]. cbn [String.append].
  by rewrite string_app_empty_r.
Qed.

Lemma alter_fresh {A} (f : A -> A) (l : list A) (x : A) :
  alter f (length l) (l ++ [x]) = l ++ [f x].
Proof. induction l as [|y l IH]; [done|]. cbn. by f_equal. Qed.

Lemma lookup_fresh {A} (l : list A) (x : A) : (l ++ [x]) !! length l = Some x.
Proof. by apply list_lookup_middle. Qed.

Lemma unsuccessful_run response st :
  unsuccessful response st = (verdict response, st).
Proof.
  unfold unsuccessful, verdict, mbind, M_bind, lift, mret, M_ret.
  destruct (contains_result response) as [present|e]; [|done].
  destruct present; simpl; [|done].
  by destruct (get_result response).
Qed.

(** The cases of what [send] came to: a value, a [RequestException] with
    or without a response, any other exception. *)
Ltac case_send_result :=
  match goal with
  | |- context [send_result ?o] =>
      destruct (send_result o) as [?response|[?msg|[?r|]| |?k| | |]]
  end.

Lemma add_txt_record_run w self record_name record_content st :
  let payload := add_payload self record_name record_content in
  let req := request_of w self add_txt_url payload in
  let final lg :=
    mkState (heap st ++ [payload])
            (log st ++ mkLog DEBUG "Attempting to add record: %s"
                         [PDict (post_data req)] :: lg)
            (posted st ++ [req]) in
  add_txt_record w self record_name record_content st =
    match send_result (network w req) with
    | Raise (RequestException (Some r)) =>
        (Raise (PluginError ("Error communicating with the Reg.ru API: "
                             +:+ str_of_int (status_code r))),
         final [mkLog ERROR "Encountered error adding TXT record: %d %s"
                  [PInt (status_code r); PStr (text r)]])
    | Raise (RequestException None) => (Raise AttributeError, final [])
    | Raise e => (Raise e, final [])
    | Return response =>
        match verdict response with
        | Raise e => (Raise e, final [])
        | Return true =>
            (Raise (PluginError ("Error communicating with the Reg.ru API: "
                                 +:+ py_str response)),
             final [mkLog ERROR "Encountered error adding TXT record: %s"
                      [response]])
        | Return false =>
            (Return tt, final [mkLog DEBUG "Successfully added TXT record" []])
        end
    end.
Proof.
  intros payload req final.
  unfold add_txt_record, mbind, M_bind, try_except.
  unfold alloc at 1. rewrite _create_params_run. cbn [heap log posted].
  rewrite alter_fresh, lookup_fresh.
  change (default [] (params_payload self record_name
                        <$> Some [("text", PStr record_content)]))
    with payload.
  change (params_payload self record_name [("text", PStr record_content)])
    with payload.
  unfold logger at 1. rewrite send_run. cbn [heap log posted].
  change (mkRequest add_txt_url (params_form self payload)
            (client_cert w (cert self) (key self))) with req.
  case_send_result; try reflexivity.
  - rewrite unsuccessful_run.
    destruct (verdict response) as [[]|e]; [| |done].
    + unfold logger, lift. rewrite format_api_error. unfold raise.
      cbn [heap log posted]. subst final. cbn beta.
      by rewrite <- app_assoc.
    + unfold logger. cbn [heap log posted]. subst final. cbn beta.
      by rewrite <- app_assoc.
  - unfold response_attr, mret, M_ret, logger, lift.
    rewrite (format_api_error (PInt (status_code r))). unfold raise.
    cbn [heap log posted py_str py_repr]. subst final. cbn beta.
    by rewrite <- app_assoc.
Qed.

Lemma del_txt_record_run w self record_name record_content st :
  let payload := del_payload self record_name record_content in
  let req := request_of w self remove_record_url payload in
  let final lg :=
    mkState (heap st ++ [payload])
            (log st ++ mkLog DEBUG "Attempting to delete record: %s"
                         [PDict (post_data req)] :: lg)
            (posted st ++ [req]) in
  del_txt_record w self record_name record_content st =
    match send_result (network w req) with
    | Raise (RequestException (Some r)) =>
        (Return tt,
         final [mkLog WARNING "Encountered error deleting TXT record: %d %s"
                  [PInt (status_code r); PStr (text r)]])
    | Raise (RequestException None) => (Raise AttributeError, final [])
    | Raise e => (Raise e, final [])
    | Return response =>
        match verdict response with
        | Raise e => (Raise e, final [])
        | Return true =>
            (Return tt,
             final [mkLog WARNING "Encountered error deleting TXT record: %s"
                      [response]])
        | Return false =>
            (Return tt,
             final [mkLog DEBUG "Successfully deleted TXT record." []])
        end
    end.
Proof.
  intros payload req final.
  unfold del_txt_record, mbind, M_bind, try_except.
  unfold alloc at 1. rewrite _create_params_run. cbn [heap log posted].
  rewrite alter_fresh, lookup_fresh.
  change (default [] (params_payload self record_name
                        <$> Some [("record_type", PStr "TXT");
                                  ("content", PStr record_content)]))
    with payload.
  change (params_payload self record_name
            [("record_type", PStr "TXT"); ("content", PStr record_content)])
    with payload.
  unfold logger at 1. rewrite send_run. cbn [heap log posted].
  change (mkRequest remove_record_url (params_form self payload)
            (client_cert w (cert self) (key self))) with req.
  case_send_result; try reflexivity.
  - unfold mret at 1, M_ret at 1. rewrite unsuccessful_run.
    destruct (verdict response) as [[]|e]; [| |done].
    + unfold logger. cbn [heap log posted]. subst final. cbn beta.
      by rewrite <- app_assoc.
    + unfold logger. cbn [heap log posted]. subst final. cbn beta.
      by rewrite <- app_assoc.
  - unfold response_attr, mret, M_ret, logger.
    cbn [heap log posted]. subst final. cbn beta.
    by rewrite <- app_assoc.
Qed.

(** Whatever happens, each operation leaves one new dict in the heap and
    one POST in the trace. *)
Lemma add_txt_record_state w self record_name record_content st :
  let payload := add_payload self record_name record_content in
  heap (add_txt_record w self record_name record_content st).2
    = heap st ++ [payload] /\
  posted (add_txt_record w self record_name record_content st).2
    = posted st ++ [request_of w self add_txt_url payload].
Proof.
  intros payload. rewrite add_txt_record_run. cbn zeta. fold payload.
  case_send_result; try done.
  destruct (verdict response) as [[]|e]; done.
Qed.

Lemma del_txt_record_state w self record_name record_content st :
  let payload := del_payload self record_name record_content in
  heap (del_txt_record w self record_name record_content st).2
    = heap st ++ [payload] /\
  posted (del_txt_record w self record_name record_content st).2
    = posted st ++ [request_of w self remove_record_url payload].
Proof.
  intros payload. rewrite del_txt_record_run. cbn zeta. fold payload.
  case_send_result; try done.
  destruct (verdict response) as [[]|e]; done.
Qed.

Lemma is_str_true v s : is_str v s = true <-> v = PStr s.
Proof.
  destruct v; simpl; try (split; [discriminate|congruence]).
  rewrite String.eqb_eq. split; congruence.
Qed.

Lemma result_is_success_true d :
  result_is_success d = true <-> dict_get "result" d = Some (PStr "success").
Proof.
  unfold result_is_success. destruct (dict_get "result" d) as [v|].
  - rewrite is_str_true. split; congruence.
  - split; discriminate.
Qed.

Lemma verdict_dict d : verdict (PDict d) = Return (negb (result_is_success d)).
Proof.
  unfold verdict, contains_result, get_result, result_is_success.
  destruct (dict_get "result" d) as [v|] eqn:E.
  - by rewrite bool_decide_true by eauto.
  - by rewrite bool_decide_false by (intros [? ?]; done).
Qed.

Lemma transport_answer_result w self url payload :
  transport_answer w self url payload
  = send_result (network w (request_of w self url payload)).
Proof. unfold transport_answer. by rewrite send_run. Qed.

(** C1. When the transport returns an envelope, [add_txt_record] returns
    normally exactly when the envelope has a [result] field that is the
    string ["success"]; on any other envelope it raises [PluginError] with
    the envelope in its message. *)
Theorem add_txt_record_envelope w self record_name record_content st d :
  transport_answer w self add_txt_url
    (add_payload self record_name record_content) = Return (PDict d) ->
  let out := (add_txt_record w self record_name record_content st).1 in
  (out = Return tt <-> dict_get "result" d = Some (PStr "success")) /\
  (dict_get "result" d <> Some (PStr "success") ->
   out = Raise (PluginError ("Error communicating with the Reg.ru API: "
                             +:+ py_str (PDict d)))).
Proof.
  intros Hw out. subst out. rewrite add_txt_record_run. cbn zeta.
  rewrite <- transport_answer_result, Hw, verdict_dict.
  rewrite <- result_is_success_true.
  destruct (result_is_success d); cbn [negb fst].
  - split; [done|]. intros H. by destruct H.
  - split; [|done]. split; discriminate.
Qed.

Lemma add_txt_record_envelope_witness :
  let w := mkWorld (fun _ => false)
             (fun _ => PostReturns
                (mkResponse 200 "" (Some (PDict [("result", PStr "success")])))) in
  let self := __init__ (Some "user") (Some "secret") None None in
  (add_txt_record w self "_acme-challenge.example.com" "token" empty_state).1
  = Return tt.
Proof.
  intros w self.
  apply (add_txt_record_envelope w self "_acme-challenge.example.com" "token"
           empty_state [("result", PStr "success")]).
  - reflexivity.
  - reflexivity.
Defined.

Lemma last_app_two {A} (l : list A) (a b : A) : last (l ++ [a; b]) = Some b.
Proof.
  change (l ++ [a; b]) with (l ++ [a] ++ [b]).
  by rewrite app_assoc, last_snoc.
Qed.

(** C7, as stated, fails: on a 500 response the [PluginError] carries the
    status but not the body; and on a failure without a response (the
    connection is refused, say) what is raised is not a [PluginError]. *)
Lemma add_txt_record_error_lacks_body :
  let self := __init__ (Some "user") (Some "secret") None None in
  ~ add_fails_carrying (failing_world (PostReturns server_error)) self
      "_acme-challenge.example.com" "token" empty_state server_error /\
  (add_txt_record (failing_world (PostRaises None)) self
     "_acme-challenge.example.com" "token" empty_state).1
  = Raise AttributeError.
Proof.
  intros self. split; [|reflexivity].
  intros (msg & Hmsg & _ & Hbody).
  vm_compute in Hmsg. injection Hmsg as <-.
  vm_compute in Hbody. discriminate Hbody.
Qed.

(** C7, amended. When the transport fails with a response attached,
    [add_txt_record] raises [PluginError] with the status code in its
    message; the status and the body go to the error log. *)
Theorem add_txt_record_transport_failure w self record_name record_content st r :
  transport_answer w self add_txt_url
    (add_payload self record_name record_content)
  = Raise (RequestException (Some r)) ->
  let out := add_txt_record w self record_name record_content st in
  out.1 = Raise (PluginError ("Error communicating with the Reg.ru API: "
                              +:+ str_of_int (status_code r))) /\
  last (log out.2)
    = Some (mkLog ERROR "Encountered error adding TXT record: %d %s"
              [PInt (status_code r); PStr (text r)]).
Proof.
  intros Hw out. subst out. rewrite add_txt_record_run. cbn zeta.
  rewrite <- transport_answer_result, Hw.
  cbn [fst snd log]. split; [done|].
  apply last_app_two.
Qed.

Lemma add_txt_record_transport_failure_witness :
  (add_txt_record (failing_world (PostReturns server_error))
     (__init__ (Some "user") (Some "secret") None None)
     "_acme-challenge.example.com" "token" empty_state).1
  = Raise (PluginError "Error communicating with the Reg.ru API: 500").
Proof.
  apply (add_txt_record_transport_failure
           (failing_world (PostReturns server_error))
           (__init__ (Some "user") (Some "secret") None None)
           "_acme-challenge.example.com" "token" empty_state server_error).
  reflexivity.
Defined.

(** Where no response is attached to the failure, the handler of
    [add_txt_record] itself fails, on [e.response.status_code]. *)
Lemma add_txt_record_without_response w self record_name record_content st :
  transport_answer w self add_txt_url
    (add_payload self record_name record_content)
  = Raise (RequestException None) ->
  (add_txt_record w self record_name record_content st).1
  = Raise AttributeError.
Proof.
  intros Hw. rewrite add_txt_record_run. cbn zeta.
  by rewrite <- transport_answer_result, Hw.
Qed.

(** The failures that [del_txt_record] swallows: a transport failure with
    a response attached and an envelope that does not report success.
    Each leaves a warning in the log. *)
Lemma del_txt_record_swallows_response w self record_name record_content st r :
  transport_answer w self remove_record_url
    (del_payload self record_name record_content)
  = Raise (RequestException (Some r)) ->
  let out := del_txt_record w self record_name record_content st in
  out.1 = Return tt /\
  last (log out.2)
    = Some (mkLog WARNING "Encountered error deleting TXT record: %d %s"
              [PInt (status_code r); PStr (text r)]).
Proof.
  intros Hw out. subst out. rewrite del_txt_record_run. cbn zeta.
  rewrite <- transport_answer_result, Hw.
  cbn [fst snd log]. split; [done|].
  apply last_app_two.
Qed.

Lemma del_txt_record_swallows_envelope w self record_name record_content st d :
  transport_answer w self remove_record_url
    (del_payload self record_name record_content) = Return (PDict d) ->
  dict_get "result" d <> Some (PStr "success") ->
  let out := del_txt_record w self record_name record_content st in
  out.1 = Return tt /\
  last (log out.2)
    = Some (mkLog WARNING "Encountered error deleting TXT record: %s" [PDict d]).
Proof.
  intros Hw Hd out. subst out. rewrite del_txt_record_run. cbn zeta.
  rewrite <- transport_answer_result, Hw, verdict_dict.
  rewrite <- result_is_success_true in Hd.
  destruct (result_is_success d); [done|].
  cbn [negb fst snd log]. split; [done|].
  apply last_app_two.
Qed.

(** The failures that it does not swallow. *)
Lemma del_txt_record_without_response w self record_name record_content st :
  transport_answer w self remove_record_url
    (del_payload self record_name record_content)
  = Raise (RequestException None) ->
  (del_txt_record w self record_name record_content st).1
  = Raise AttributeError.
Proof.
  intros Hw. rewrite del_txt_record_run. cbn zeta.
  by rewrite <- transport_answer_result, Hw.
Qed.

(** C2 at a failing input: the connection fails, no response is attached
    to the exception, and [del_txt_record] raises [AttributeError]; no
    warning is logged. The same happens when the body of the response is
    not JSON; a body that is JSON but not an object ([5], say) ends in a
    [TypeError]. *)
Theorem del_txt_record_raises :
  let self := __init__ (Some "user") (Some "secret") None None in
  let run o := del_txt_record (failing_world o) self
                 "_acme-challenge.example.com" "token" empty_state in
  (run (PostRaises None)).1 = Raise AttributeError /\
  map log_level (log (run (PostRaises None)).2) = [DEBUG] /\
  (run (PostReturns (mkResponse 200 "<html/>" None))).1 = Raise AttributeError /\
  (run (PostReturns (mkResponse 200 "5" (Some (PInt 5))))).1 = Raise TypeError.
Proof. vm_compute. done. Qed.

Lemma params_form_init username password cert key payload :
  params_form (__init__ username password cert key) payload
  = [("input_format", PStr "json");
     ("input_data", PStr (dumps (PDict payload)))].
Proof. reflexivity. Qed.

Lemma add_payload_items self record_name record_content :
  add_payload self record_name record_content
  = [("text", PStr record_content);
     ("subdomain",
      PStr (str_join "." (all_but_last_two (str_split "." record_name))));
     ("domains",
      PList [PDict [("dname",
               PStr (str_join "." (last_two (str_split "." record_name))))]]);
     ("output_content_type", PStr "json");
     ("username", of_option (username self));
     ("password", of_option (password self))].
Proof. reflexivity. Qed.

Lemma del_payload_items self record_name record_content :
  del_payload self record_name record_content
  = [("record_type", PStr "TXT");
     ("content", PStr record_content);
     ("subdomain",
      PStr (str_join "." (all_but_last_two (str_split "." record_name))));
     ("domains",
      PList [PDict [("dname",
               PStr (str_join "." (last_two (str_split "." record_name))))]]);
     ("output_content_type", PStr "json");
     ("username", of_option (username self));
     ("password", of_option (password self))].
Proof. reflexivity. Qed.

(** C6. The form that [add_txt_record] and [del_txt_record] post has
    exactly two fields: [input_format], which is ["json"], and
    [input_data], the JSON text of the payload; the payload holds the
    fields of the operation together with [username], [password] and
    [output_content_type], which is ["json"]. *)
Theorem posted_form_and_payload w username password cert key
    record_name record_content st :
  let self := __init__ username password cert key in
  (exists payload,
     posted (add_txt_record w self record_name record_content st).2
       = posted st ++
         [mkRequest add_txt_url
            [("input_format", PStr "json");
             ("input_data", PStr (dumps (PDict payload)))]
            (client_cert w cert key)] /\
     heap (add_txt_record w self record_name record_content st).2
       = heap st ++ [payload] /\
     dict_get "text" payload = Some (PStr record_content) /\
     dict_get "username" payload = Some (of_option username) /\
     dict_get "password" payload = Some (of_option password) /\
     dict_get "output_content_type" payload = Some (PStr "json")) /\
  (exists payload,
     posted (del_txt_record w self record_name record_content st).2
       = posted st ++
         [mkRequest remove_record_url
            [("input_format", PStr "json");
             ("input_data", PStr (dumps (PDict payload)))]
            (client_cert w cert key)] /\
     heap (del_txt_record w self record_name record_content st).2
       = heap st ++ [payload] /\
     dict_get "record_type" payload = Some (PStr "TXT") /\
     dict_get "content" payload = Some (PStr record_content) /\
     dict_get "username" payload = Some (of_option username) /\
     dict_get "password" payload = Some (of_option password) /\
     dict_get "output_content_type" payload = Some (PStr "json")).
Proof.
  intros self. split.
  - exists (add_payload self record_name record_content).
    destruct (add_txt_record_state w self record_name record_content st)
      as [Hheap Hposted].
    rewrite Hheap, Hposted. unfold request_of. subst self.
    rewrite params_form_init, add_payload_items. repeat split.
  - exists (del_payload self record_name record_content).
    destruct (del_txt_record_state w self record_name record_content st)
      as [Hheap Hposted].
    rewrite Hheap, Hposted. unfold request_of. subst self.
    rewrite params_form_init, del_payload_items. repeat split.
Qed.

(** ** The credential validator *)

Lemma format_two_fields_one_argument (tmpl : string) (v : pyval) :
  tmpl = "{}: Either password and username are required. (see {})"
  \/ tmpl = "{}: Either cert and key not found. (see {})" ->
  str_format tmpl [v] = Raise IndexError.
Proof.
  intros [-> | ->]; lazy -[py_str String.append]; reflexivity.
Qed.

(** Without a user name or without a password the validator stops in
    [str.format]: the template has two fields and gets one argument. *)
Lemma _validate_credentials_no_login w credentials st :
  truthy (conf credentials "password") = false
  \/ truthy (conf credentials "username") = false ->
  _validate_credentials w credentials st = (Raise IndexError, st).
Proof.
  intros H. unfold _validate_credentials, mbind, M_bind.
  assert (negb (truthy (conf credentials "password"))
          || negb (truthy (conf credentials "username")) = true) as ->.
  { destruct H as [-> | ->]; [done|]. by rewrite orb_true_r. }
  unfold lift. by rewrite format_two_fields_one_argument by auto.
Qed.

(** The validator called on its own, past [require]: the password is
    missing and it raises [IndexError]; an empty user name does the
    same. *)
Lemma validate_credentials_missing_password :
  let w := mkWorld (fun _ => true) (fun _ => PostRaises None) in
  let file := "/usr/local/etc/letsencrypt/regru.ini" in
  (_validate_credentials w
     (mkCredentials file {[ "username" := "user" ]}) empty_state).1
    = Raise IndexError /\
  (_validate_credentials w
     (mkCredentials file (<[ "username" := "" ]> {[ "password" := "secret" ]}))
     empty_state).1
    = Raise IndexError.
Proof.
  intros w file. split.
  - by rewrite _validate_credentials_no_login by (left; reflexivity).
  - by rewrite _validate_credentials_no_login by (right; reflexivity).
Qed.









(** C4, as stated, fails: a certificate without a key is accepted; and
    with both given and no such files, what is raised is not a
    [PluginError]. *)
Lemma validate_credentials_accepts_lone_cert :
  exactly_one_of_cert_key lone_cert /\
  (_validate_credentials (mkWorld (fun _ => true) (fun _ => PostRaises None))
     lone_cert empty_state).1 = Return tt /\
  (_validate_credentials (mkWorld (fun _ => false) (fun _ => PostRaises None))
     (mkCredentials "/usr/local/etc/letsencrypt/regru.ini"
        (<[ "key" := "/usr/local/etc/ssl/client.key" ]> (variables lone_cert)))
     empty_state).1 = Raise IndexError.
Proof.
  split; [|split; reflexivity]. vm_compute. discriminate.
Qed.

(** C4, amended. Credentials with a user name and a password that give
    only one of [cert] and [key] are accepted; credentials that give both
    are rejected when one of the two files does not exist. *)
Theorem validate_credentials_cert_key w credentials st :
  (truthy (conf credentials "username") = true ->
   truthy (conf credentials "password") = true ->
   exactly_one_of_cert_key credentials ->
   (_validate_credentials w credentials st).1 = Return tt) /\
  (cert_or_key_not_found w credentials ->
   exists e, (_validate_credentials w credentials st).1 = Raise e).
Proof.
  split.
  - intros Hu Hp Hone. unfold _validate_credentials, mbind, M_bind.
    rewrite Hu, Hp. cbn [negb orb]. unfold mret, M_ret.
    unfold exactly_one_of_cert_key in Hone.
    destruct (conf credentials "cert") as [c|], (conf credentials "key") as [k|];
      try done.
    destruct (truthy (Some c)), (truthy (Some k)); done.
  - intros (c & k & Hc & Hk & Hce & Hke & Hmiss).
    destruct (truthy (conf credentials "password")) eqn:Hp;
      [|rewrite _validate_credentials_no_login by auto; eauto].
    destruct (truthy (conf credentials "username")) eqn:Hu;
      [|rewrite _validate_credentials_no_login by auto; eauto].
    unfold _validate_credentials, mbind, M_bind.
    rewrite Hu, Hp, Hc, Hk. cbn [negb orb]. unfold mret, M_ret.
    destruct c as [|a c]; [done|]. destruct k as [|b k]; [done|].
    cbn [truthy andb].
    assert (negb (path_exists w (String a c))
            || negb (path_exists w (String b k)) = true) as ->.
    { destruct Hmiss as [-> | ->]; [done|]. by rewrite orb_true_r. }
    unfold lift. rewrite format_two_fields_one_argument by auto. eauto.
Qed.

Lemma validate_credentials_cert_key_witness :
  (_validate_credentials (mkWorld (fun _ => true) (fun _ => PostRaises None))
     lone_cert empty_state).1 = Return tt /\
  exists e,
    (_validate_credentials (mkWorld (fun _ => false) (fun _ => PostRaises None))
       (mkCredentials "regru.ini"
          (<[ "key" := "client.key" ]> (variables lone_cert)))
       empty_state).1 = Raise e.
Proof.
  split.
  - apply (validate_credentials_cert_key
             (mkWorld (fun _ => true) (fun _ => PostRaises None))
             lone_cert empty_state).
    + reflexivity.
    + reflexivity.
    + vm_compute. discriminate.
  - apply (validate_credentials_cert_key
             (mkWorld (fun _ => false) (fun _ => PostRaises None))
             (mkCredentials "regru.ini"
                (<[ "key" := "client.key" ]> (variables lone_cert)))
             empty_state).
    exists "/usr/local/etc/ssl/client.crt", "client.key".
    repeat split; try discriminate. by left.
Defined.

(** ** [json.loads] undoes [json.dumps] *)

Lemma string_length_app (a b : string) :
  String.length (a +:+ b) = String.length a + String.length b.
Proof. induction a as [|x a IH]; simpl; [done|]. by rewrite IH. Qed.

(** One escaped character is read back as the character. *)
Lemma scanstring_escape_char (c : ascii) (s : string) :
  scanstring (escape_char c +:+ s)
  = match scanstring s with
    | Some (t, rest) => Some (String c t, rest)
    | None => None
    end.
Proof.
  destruct c as [[] [] [] [] [] [] [] []]; reflexivity.
Qed.

Lemma scanstring_escape_body (s rest : string) :
  scanstring (escape_body s +:+ String dquote rest) = Some (s, rest).
Proof.
  induction s as [|c s IH]; [reflexivity|].
  cbn [escape_body]. by rewrite string_app_assoc, scanstring_escape_char, IH.
Qed.

Lemma encode_str_app (s rest : string) :
  encode_str s +:+ rest = String dquote (escape_body s +:+ String dquote rest).
Proof.
  unfold encode_str. cbn [String.append]. by rewrite string_app_assoc.
Qed.

Lemma scan_digits_uint (d : Decimal.uint) (rest : string) :
  ends_number rest = true ->
  scan_digits (NilEmpty.string_of_uint d +:+ rest)
  = (NilEmpty.string_of_uint d, rest).
Proof.
  intros Hrest. induction d; cbn [NilEmpty.string_of_uint String.append];
    try (cbn [scan_digits]; rewrite IHd; reflexivity).
  destruct rest as [|c rest]; [done|].
  cbn [scan_digits]. cbn [ends_number] in Hrest.
  by destruct (is_digit c).
Qed.

Lemma ends_number_no_fraction (rest : string) :
  ends_number rest = true -> starts_fraction rest = false.
Proof.
  destruct rest as [|c rest]; [done|]. cbn [ends_number starts_fraction].
  destruct (is_digit c); [done|]. cbn [orb]. by destruct (_ || _).
Qed.

Lemma pos_to_uint_head (p : positive) :
  match Pos.to_uint p with
  | Decimal.Nil | Decimal.D0 _ => False
  | _ => True
  end.
Proof.
  pose proof (DecimalPos.Unsigned.to_uint_nonzero p) as Hnz.
  pose proof (DecimalPos.Unsigned.to_of (Pos.to_uint p)) as Hnorm.
  rewrite DecimalPos.Unsigned.of_to in Hnorm. cbn [N.to_uint] in Hnorm.
  assert (Hhead : Decimal.nzhead (Pos.to_uint p) <> Decimal.Nil).
  { intros Hnil. apply DecimalFacts.unorm_0 in Hnil. congruence. }
  rewrite (DecimalFacts.unorm_nzhead _ Hhead) in Hnorm.
  destruct (Pos.to_uint p) eqn:E; try exact I.
  - by apply DecimalPos.Unsigned.to_uint_nonnil in E.
  - symmetry in Hnorm. by apply DecimalFacts.nzhead_nonzero in Hnorm.
Qed.

Lemma scan_nat_pos (p : positive) (rest : string) :
  ends_number rest = true ->
  scan_nat (NilEmpty.string_of_uint (Pos.to_uint p) +:+ rest)
  = Some (Zpos p, rest).
Proof.
  intros Hrest. unfold scan_nat. rewrite scan_digits_uint by done.
  rewrite (ends_number_no_fraction _ Hrest), NilEmpty.usu.
  assert (Hz : Z.of_uint (Pos.to_uint p) = Zpos p).
  { unfold Z.of_uint. by rewrite DecimalPos.Unsigned.of_to. }
  rewrite Hz. pose proof (pos_to_uint_head p) as Hhead.
  destruct (Pos.to_uint p); try done; reflexivity.
Qed.

(** An integer is read back, sign and all. *)
Lemma scan_once_int (z : Z) (fuel : nat) (rest : string) :
  ends_number rest = true ->
  scan_once (S fuel) (encode_int z +:+ rest) = Some (PInt z, rest).
Proof.
  intros Hrest. destruct z as [|p|p]; unfold encode_int, str_of_int.
  - cbn [String.append]. cbn -[scan_nat]. unfold scan_nat.
    cbn [scan_digits is_digit].
    change (is_digit "0") with true. cbv iota.
    destruct rest as [|c rest]; [reflexivity|].
    cbn [scan_digits]. cbn [ends_number] in Hrest.
    destruct (is_digit c); [done|]. cbn [orb] in Hrest.
    cbn [starts_fraction].
    by destruct (Ascii.eqb c "." || Ascii.eqb c "e" || Ascii.eqb c "E").
  - pose proof (scan_nat_pos p rest Hrest) as Hscan.
    pose proof (pos_to_uint_head p) as Hhead.
    destruct (Pos.to_uint p); try done;
      cbn [NilEmpty.string_of_uint String.append] in *;
      cbn -[scan_nat]; by rewrite Hscan.
  - cbn [String.append]. cbn -[scan_nat]. by rewrite scan_nat_pos.
Qed.

Lemma dumps_starts_value (v : pyval) (rest : string) :
  starts_value (dumps v +:+ rest).
Proof.
  unfold starts_value. destruct v as [|[]|z|s|l|d]; cbn [dumps String.append];
    try (eexists _, _; split; [reflexivity|reflexivity]).
  - destruct z as [|p|p]; unfold encode_int, str_of_int;
      try (eexists _, _; split; [reflexivity|reflexivity]).
    pose proof (pos_to_uint_head p) as Hhead.
    destruct (Pos.to_uint p); try done;
      eexists _, _; split; reflexivity.
Qed.

Lemma skip_ws_starts_value (s : string) : starts_value s -> skip_ws s = s.
Proof.
  intros (c & t & -> & Hc). cbn [skip_ws].
  destruct c as [[] [] [] [] [] [] [] []]; try discriminate Hc; reflexivity.
Qed.

Lemma skip_ws_space (s : string) :
  starts_value s -> skip_ws (String " " s) = s.
Proof. intros Hs. cbn. by apply skip_ws_starts_value. Qed.

Lemma scan_once_open_bracket (fuel : nat) (s : string) :
  starts_value s ->
  scan_once (S fuel) (String "[" s) = scan_array fuel s [].
Proof.
  intros (c & t & -> & Hc).
  destruct c as [[] [] [] [] [] [] [] []]; try discriminate Hc; reflexivity.
Qed.

Lemma dict_of_pairs_nodup (d : list (string * pyval)) :
  NoDup (map fst d) -> dict_of_pairs d = d.
Proof.
  unfold dict_of_pairs.
  assert (Hgen : forall acc,
    NoDup (map fst (acc ++ d)) ->
    fold_left (fun acc kv => dict_set (fst kv) (snd kv) acc) d acc = acc ++ d).
  { induction d as [|[k v] d IH]; intros acc Hnd; simpl.
    - by rewrite app_nil_r.
    - rewrite dict_keys_set_notin.
      + rewrite IH; rewrite <- app_assoc; done.
      + rewrite map_app in Hnd. apply NoDup_app in Hnd as (_ & Hdisj & _).
        intros Hin. apply (Hdisj k).
        * by apply list_elem_of_In.
        * simpl. left. }
  intros Hnd. by apply (Hgen []).
Qed.

(** One turn of the array loop and of the object loop. *)
Lemma scan_array_last fuel s acc v rest :
  scan_once fuel s = Some (v, String "]" rest) ->
  scan_array (S fuel) s acc = Some (PList (rev (v :: acc)), rest).
Proof. intros H. cbn [scan_array]. by rewrite H. Qed.

Lemma scan_array_more fuel s acc v s2 :
  scan_once fuel s = Some (v, String "," (String " " s2)) ->
  starts_value s2 ->
  scan_array (S fuel) s acc = scan_array fuel s2 (v :: acc).
Proof.
  intros H Hs2. cbn [scan_array]. rewrite H.
  change (skip_ws (String "," (String " " s2)))
    with (String "," (String " " s2)).
  cbv iota. by rewrite skip_ws_space.
Qed.

Lemma scan_object_eq fuel s0 acc :
  scan_object (S fuel) (String dquote s0) acc
  = match scanstring s0 with
    | Some (k, s1) =>
        match skip_ws s1 with
        | String ":" s2 =>
            match scan_once fuel (skip_ws s2) with
            | Some (v, s3) =>
                match skip_ws s3 with
                | String "}" rest =>
                    Some (PDict (dict_of_pairs (rev ((k, v) :: acc))), rest)
                | String "," s4 => scan_object fuel (skip_ws s4) ((k, v) :: acc)
                | _ => None
                end
            | None => None
            end
        | _ => None
        end
    | None => None
    end.
Proof. reflexivity. Qed.

Lemma scan_object_last fuel k s acc v rest :
  starts_value s ->
  scan_once fuel s = Some (v, String "}" rest) ->
  scan_object (S fuel) (encode_str k +:+ String ":" (String " " s)) acc
  = Some (PDict (dict_of_pairs (rev ((k, v) :: acc))), rest).
Proof.
  intros Hs H. rewrite encode_str_app, scan_object_eq, scanstring_escape_body.
  change (skip_ws (String ":" (String " " s))) with (String ":" (String " " s)).
  cbv iota. by rewrite skip_ws_space, H.
Qed.

Lemma scan_object_more fuel k s acc v s2 :
  starts_value s ->
  scan_once fuel s = Some (v, String "," (String " " s2)) ->
  starts_value s2 ->
  scan_object (S fuel) (encode_str k +:+ String ":" (String " " s)) acc
  = scan_object fuel s2 ((k, v) :: acc).
Proof.
  intros Hs H Hs2.
  rewrite encode_str_app, scan_object_eq, scanstring_escape_body.
  change (skip_ws (String ":" (String " " s))) with (String ":" (String " " s)).
  cbv iota. rewrite skip_ws_space, H by done.
  change (skip_ws (String "," (String " " s2)))
    with (String "," (String " " s2)).
  cbv iota. by rewrite skip_ws_space.
Qed.

Lemma scan_array_items (l : list pyval) :
  Forall reads_back l ->
  forall x acc fuel rest,
    reads_back x ->
    S (size x) + items_size l <= fuel ->
    wf x = true -> forallb wf l = true ->
    scan_array fuel
      (String.concat ", " (map dumps (x :: l)) +:+ String "]" rest) acc
    = Some (PList (rev acc ++ x :: l), rest).
Proof.
  induction 1 as [|y l Hy Hl IH]; intros x acc fuel rest Hx Hfuel Hwx Hwl;
    (destruct fuel as [|fuel]; [lia|]).
  - cbn [map String.concat].
    rewrite (scan_array_last fuel _ acc x rest); [done|].
    apply Hx; [lia|done|done].
  - cbn [forallb] in Hwl. apply andb_prop in Hwl as [Hwy Hwl].
    change (items_size (y :: l)) with (S (size y) + items_size l) in Hfuel.
    change (String.concat ", " (map dumps (x :: y :: l)))
      with (dumps x +:+ ", " +:+ String.concat ", " (map dumps (y :: l))).
    rewrite !string_app_assoc. cbn [String.append].
    rewrite (scan_array_more fuel _ acc x
               (String.concat ", " (map dumps (y :: l)) +:+ String "]" rest)).
    + rewrite IH; [|done|lia|done|done].
      cbn [rev]. by rewrite <- app_assoc.
    + apply Hx; [lia|done|done].
    + destruct l as [|z l]; cbn [map String.concat].
      * apply dumps_starts_value.
      * rewrite string_app_assoc. apply dumps_starts_value.
Qed.

Lemma dumps_item_app (kv : string * pyval) (rest : string) :
  dumps_item kv +:+ rest
  = encode_str (fst kv) +:+ String ":" (String " " (dumps (snd kv) +:+ rest)).
Proof. unfold dumps_item. by rewrite !string_app_assoc. Qed.

Lemma dumps_item_head (kv : string * pyval) (rest : string) :
  exists t, dumps_item kv +:+ rest = String dquote t.
Proof. rewrite dumps_item_app, encode_str_app. eauto. Qed.

Lemma scan_object_items (d : list (string * pyval)) :
  Forall (fun kv => reads_back (snd kv)) d ->
  forall kv acc fuel rest,
    reads_back (snd kv) ->
    S (size (snd kv)) + pairs_size d <= fuel ->
    wf (snd kv) = true -> forallb (fun kv => wf (snd kv)) d = true ->
    scan_object fuel
      (String.concat ", " (map dumps_item (kv :: d)) +:+ String "}" rest) acc
    = Some (PDict (dict_of_pairs (rev acc ++ kv :: d)), rest).
Proof.
  induction 1 as [|kv' d Hy Hl IH]; intros [k v] acc fuel rest Hx Hfuel Hwx Hwl;
    cbn [fst snd] in *; (destruct fuel as [|fuel]; [lia|]).
  - cbn [map String.concat]. rewrite dumps_item_app. cbn [fst snd].
    rewrite (scan_object_last fuel k _ acc v rest); [done| |].
    + apply dumps_starts_value.
    + apply Hx; [lia|done|done].
  - cbn [forallb] in Hwl. apply andb_prop in Hwl as [Hwy Hwl].
    change (pairs_size (kv' :: d))
      with (S (size (snd kv')) + pairs_size d) in Hfuel.
    change (String.concat ", " (map dumps_item ((k, v) :: kv' :: d)))
      with (dumps_item (k, v) +:+ ", "
            +:+ String.concat ", " (map dumps_item (kv' :: d))).
    rewrite string_app_assoc, dumps_item_app. cbn [fst snd].
    rewrite !string_app_assoc. cbn [String.append].
    rewrite (scan_object_more fuel k _ acc v
               (String.concat ", " (map dumps_item (kv' :: d))
                +:+ String "}" rest)).
    + rewrite IH; [|done|lia|done|done].
      cbn [rev]. by rewrite <- app_assoc.
    + apply dumps_starts_value.
    + apply Hx; [lia|done|done].
    + destruct d as [|z d]; cbn [map String.concat].
      * destruct (dumps_item_head kv' (String "}" rest)) as [t ->].
        by eexists _, _.
      * rewrite string_app_assoc.
        match goal with
        | |- starts_value (dumps_item ?a +:+ ?r) =>
            destruct (dumps_item_head a r) as [t ->]
        end.
        by eexists _, _.
Qed.

Lemma dumps_dict_items (d : list (string * pyval)) :
  dumps (PDict d) = "{" +:+ String.concat ", " (map dumps_item d) +:+ "}".
Proof. reflexivity. Qed.

Lemma scan_once_reads_back (v : pyval) : reads_back v.
Proof.
  induction v as [|b|z|s|l IH|d IH] using pyval_ind;
    intros fuel rest Hfuel Hrest Hwf;
    (destruct fuel as [|fuel]; [cbn [size] in Hfuel; lia|]).
  - reflexivity.
  - destruct b; reflexivity.
  - by apply scan_once_int.
  - cbn [dumps]. rewrite encode_str_app.
    change (scan_once (S fuel) (String dquote ?s))
      with (match scanstring s with
            | Some (t, r) => Some (PStr t, r)
            | None => None
            end).
    by rewrite scanstring_escape_body.
  - cbn [dumps]. rewrite !string_app_assoc. cbn [String.append].
    destruct l as [|x l]; [reflexivity|].
    apply Forall_cons in IH as [Hx Hl].
    cbn [wf forallb] in Hwf. apply andb_prop in Hwf as [Hwx Hwl].
    rewrite scan_once_open_bracket.
    + rewrite (scan_array_items l Hl x [] fuel rest Hx); [done| |done|done].
      change (size (PList (x :: l)))
        with (S (S (size x) + items_size l)) in Hfuel. lia.
    + destruct l as [|y l]; cbn [map String.concat].
      * apply dumps_starts_value.
      * rewrite string_app_assoc. apply dumps_starts_value.
  - rewrite dumps_dict_items, !string_app_assoc. cbn [String.append].
    destruct d as [|kv d]; [reflexivity|].
    apply Forall_cons in IH as [Hx Hl].
    cbn [wf forallb] in Hwf.
    apply andb_prop in Hwf as [Hnd Hwf]. apply andb_prop in Hwf as [Hwx Hwl].
    apply bool_decide_eq_true in Hnd.
    assert (Hhead : exists t,
      String.concat ", " (map dumps_item (kv :: d)) +:+ String "}" rest
      = String dquote t).
    { destruct d as [|kv' d]; cbn [map String.concat].
      - apply dumps_item_head.
      - rewrite string_app_assoc. apply dumps_item_head. }
    destruct Hhead as [t Ht].
    assert (Hopen : scan_once (S fuel) (String "{" (String dquote t))
                    = scan_object fuel (String dquote t) []) by reflexivity.
    rewrite Ht, Hopen, <- Ht.
    rewrite (scan_object_items d Hl kv [] fuel rest Hx); [| |done|done].
    + cbn [rev app]. by rewrite dict_of_pairs_nodup.
    + change (size (PDict (kv :: d)))
        with (S (S (size (snd kv)) + pairs_size d)) in Hfuel. lia.
Qed.

(** The text of a value is at least as long as the value is large, so
    the fuel that [loads] takes is enough. *)
Lemma size_le_length (v : pyval) : size v <= String.length (dumps v).
Proof.
  induction v as [|b|z|s|l IH|d IH] using pyval_ind.
  - cbn. lia.
  - destruct b; cbn; lia.
  - destruct (dumps_starts_value (PInt z) "") as (c & t & Hz & _).
    rewrite string_app_empty_r in Hz. rewrite Hz. cbn. lia.
  - cbn [dumps size]. unfold encode_str. cbn [String.length]. lia.
  - cbn [dumps size]. rewrite !string_length_app. cbn [String.length].
    assert (Hsum : list_sum (map (fun x => S (size x)) l)
                   <= S (String.length (String.concat ", " (map dumps l)))).
    { induction IH as [|x l Hx Hl IHl]; [cbn; lia|].
      destruct l as [|y l].
      - cbn [map list_sum fold_right String.concat]. lia.
      - change (String.concat ", " (map dumps (x :: y :: l)))
          with (dumps x +:+ ", " +:+ String.concat ", " (map dumps (y :: l))).
        rewrite !string_length_app. cbn [String.length].
        change (list_sum (map (fun x => S (size x)) (x :: y :: l)))
          with (S (size x) + list_sum (map (fun x => S (size x)) (y :: l))).
        lia. }
    lia.
  - rewrite dumps_dict_items. cbn [size]. rewrite !string_length_app.
    cbn [String.length].
    assert (Hsum : list_sum (map (fun kv => S (size (snd kv))) d)
                   <= S (String.length (String.concat ", " (map dumps_item d)))).
    { induction IH as [|kv d Hx Hl IHl]; [cbn; lia|].
      assert (Hitem : S (size (snd kv)) <= String.length (dumps_item kv)).
      { unfold dumps_item, encode_str. rewrite !string_length_app.
        cbn [String.length]. lia. }
      destruct d as [|kv' d].
      - cbn [map list_sum fold_right String.concat]. lia.
      - change (String.concat ", " (map dumps_item (kv :: kv' :: d)))
          with (dumps_item kv +:+ ", "
                +:+ String.concat ", " (map dumps_item (kv' :: d))).
        rewrite !string_length_app. cbn [String.length].
        change (list_sum (map (fun kv => S (size (snd kv))) (kv :: kv' :: d)))
          with (S (size (snd kv))
                + list_sum (map (fun kv => S (size (snd kv))) (kv' :: d))).
        lia. }
    lia.
Qed.

(** Decoding the text of a value gives the value back. *)
Lemma loads_dumps (v : pyval) : wf v = true -> loads (dumps v) = Some v.
Proof.
  intros Hwf. unfold loads.
  assert (Hs : starts_value (dumps v)).
  { rewrite <- (string_app_empty_r (dumps v)). apply dumps_starts_value. }
  rewrite (skip_ws_starts_value _ Hs).
  pose proof (scan_once_reads_back v (S (String.length (dumps v))) "") as H.
  rewrite string_app_empty_r in H. rewrite H; [done| |done|done].
  pose proof (size_le_length v). lia.
Qed.

Lemma wf_of_option (o : option string) : wf (of_option o) = true.
Proof. by destruct o. Qed.

Lemma wf_add_payload self record_name record_content :
  wf (PDict (add_payload self record_name record_content)) = true.
Proof.
  rewrite add_payload_items. cbn [wf forallb map fst snd].
  rewrite !wf_of_option. reflexivity.
Qed.

Lemma wf_del_payload self record_name record_content :
  wf (PDict (del_payload self record_name record_content)) = true.
Proof.
  rewrite del_payload_items. cbn [wf forallb map fst snd].
  rewrite !wf_of_option. reflexivity.
Qed.

(** C9. For [add_txt_record] and for [del_txt_record], decoding the
    [input_data] field of the form that is posted gives back the payload,
    the dict that [_create_params] filled in. *)
Theorem input_data_round_trip w username password cert key
    record_name record_content st :
  let self := __init__ username password cert key in
  (exists req text payload,
     posted (add_txt_record w self record_name record_content st).2
       = posted st ++ [req] /\
     heap (add_txt_record w self record_name record_content st).2
       = heap st ++ [payload] /\
     dict_get "input_data" (post_data req) = Some (PStr text) /\
     text = dumps (PDict payload) /\
     loads text = Some (PDict payload)) /\
  (exists req text payload,
     posted (del_txt_record w self record_name record_content st).2
       = posted st ++ [req] /\
     heap (del_txt_record w self record_name record_content st).2
       = heap st ++ [payload] /\
     dict_get "input_data" (post_data req) = Some (PStr text) /\
     text = dumps (PDict payload) /\
     loads text = Some (PDict payload)).
Proof.
  intros self. split.
  - destruct (add_txt_record_state w self record_name record_content st)
      as [Hheap Hposted].
    eexists _, _, _. split; [exact Hposted|]. split; [exact Hheap|].
    subst self. unfold request_of. cbn [post_data].
    rewrite params_form_init. split; [reflexivity|]. split; [reflexivity|].
    apply loads_dumps, wf_add_payload.
  - destruct (del_txt_record_state w self record_name record_content st)
      as [Hheap Hposted].
    eexists _, _, _. split; [exact Hposted|]. split; [exact Hheap|].
    subst self. unfold request_of. cbn [post_data].
    rewrite params_form_init. split; [reflexivity|]. split; [reflexivity|].
    apply loads_dumps, wf_del_payload.
Qed.

(** The round trip on a run of each operation. *)
Example round_trip_add :
  let st := (add_txt_record (failing_world (PostRaises None))
               (__init__ (Some "user") None None None)
               "_acme-challenge.example.com" "token" empty_state).2 in
  match posted st with
  | [req] =>
      match dict_get "input_data" (post_data req) with
      | Some (PStr text) => option_map PDict (heap st !! 0) = loads text
      | _ => False
      end
  | _ => False
  end.
Proof. vm_compute. reflexivity. Qed.

(** * Further properties of the code *)

(** ** [_HttpClient.send] *)

(** X1. [send] returns a value only when the server answered the POST it
    made with a status outside 400..599 and a body that is JSON; the
    value is the decoded body. *)
Theorem send_returns_decoded_body w url data cert key st v :
  (HttpClient.send w url data cert key st).1 = Return v ->
  exists req r,
    posted (HttpClient.send w url data cert key st).2 = posted st ++ [req] /\
    network w req = PostReturns r /\
    ~ (400 <= status_code r < 600)%Z /\
    json_body r = Some v.
Proof.
  rewrite send_run. cbn zeta. cbn [fst snd posted]. unfold send_result.
  intros H. eexists. destruct (network w _) as [e|r] eqn:E; [done|].
  exists r. split; [reflexivity|]. split; [exact E|].
  destruct ((400 <=? status_code r) && (status_code r <? 600))%Z eqn:Es;
    [done|].
  split.
  - intros [Hlo Hhi]. apply andb_false_iff in Es as [Es|Es]; lia.
  - destruct (json_body r); [|done]. by injection H as ->.
Qed.

Lemma send_returns_decoded_body_witness :
  exists req r,
    network (mkWorld (fun _ => false)
               (fun _ => PostReturns (mkResponse 200 "{}" (Some (PDict [])))))
            req = PostReturns r /\
    json_body r = Some (PDict []).
Proof.
  destruct (send_returns_decoded_body
              (mkWorld (fun _ => false)
                 (fun _ => PostReturns (mkResponse 200 "{}" (Some (PDict [])))))
              add_txt_url [] None None empty_state (PDict []) eq_refl)
    as (req & r & _ & Hnet & _ & Hbody).
  exists req, r. split; [exact Hnet | exact Hbody].
Defined.

(** X2. A status from 400 to 599 makes [send] raise a [RequestException]
    with the response attached, whatever the body, valid JSON included;
    the heap and the log are left as they were. *)
Theorem send_error_status_raises w url data cert key st r :
  (forall c, network w (mkRequest url data c) = PostReturns r) ->
  (400 <= status_code r < 600)%Z ->
  let out := HttpClient.send w url data cert key st in
  out.1 = Raise (RequestException (Some r)) /\
  heap out.2 = heap st /\ log out.2 = log st.
Proof.
  intros Hnet Hs out. subst out. rewrite send_run. cbn zeta.
  rewrite Hnet. unfold send_result.
  assert ((400 <=? status_code r) && (status_code r <? 600) = true)%Z as ->.
  { apply andb_true_iff. split; lia. }
  done.
Qed.

Lemma send_error_status_raises_witness :
  let r := mkResponse 403 "" (Some (PDict [("result", PStr "success")])) in
  (HttpClient.send (mkWorld (fun _ => true) (fun _ => PostReturns r))
     add_txt_url [] (Some "client.crt") (Some "client.key") empty_state).1
  = Raise (RequestException (Some r)).
Proof.
  intros r.
  apply (send_error_status_raises
           (mkWorld (fun _ => true) (fun _ => PostReturns r))
           add_txt_url [] (Some "client.crt") (Some "client.key")
           empty_state r).
  - reflexivity.
  - cbn. lia.
Defined.

(** ** What [add_txt_record] and [del_txt_record] return and raise *)

Lemma send_result_raises o e :
  send_result o = Raise e -> exists r, e = RequestException r.
Proof.
  unfold send_result. destruct o as [r|r].
  - intros [= <-]. eauto.
  - destruct (_ && _)%Z; [intros [= <-]; eauto|].
    destruct (json_body r); [done|]. intros [= <-]. eauto.
Qed.

Lemma verdict_raises v e : verdict v = Raise e -> e = TypeError.
Proof.
  unfold verdict, contains_result, get_result.
  destruct v as [|b|z|s|l|d]; try (intros [= <-]; done).
  - destruct (str_contains "result" s); cbn [negb]; [|done]. by intros [= <-].
  - destruct (existsb _ l); cbn [negb]; [|done]. by intros [= <-].
  - destruct (dict_get "result" d) as [x|].
    + rewrite bool_decide_true by eauto. done.
    + rewrite bool_decide_false by (intros [? ?]; done). done.
Qed.

Lemma verdict_success v :
  verdict v = Return false ->
  exists d, v = PDict d /\ dict_get "result" d = Some (PStr "success").
Proof.
  destruct v as [|b|z|s|l|d]; try done.
  - unfold verdict, contains_result, get_result.
    by destruct (str_contains "result" s).
  - unfold verdict, contains_result, get_result.
    by destruct (existsb _ l).
  - rewrite verdict_dict. intros [= H]. exists d. split; [done|].
    apply result_is_success_true. by destruct (result_is_success d).
Qed.

(** X3. [add_txt_record] returns normally only when the transport gave
    back a JSON object whose [result] is the string ["success"]: no
    other answer is taken for a success. *)
Theorem add_txt_record_success_is_genuine w self record_name record_content st :
  (add_txt_record w self record_name record_content st).1 = Return tt ->
  exists d,
    transport_answer w self add_txt_url
      (add_payload self record_name record_content) = Return (PDict d) /\
    dict_get "result" d = Some (PStr "success").
Proof.
  rewrite add_txt_record_run, transport_answer_result. cbn zeta.
  case_send_result; try done.
  destruct (verdict response) as [[]|e] eqn:Ev; try done.
  intros _. destruct (verdict_success _ Ev) as (d & -> & Hd). eauto.
Qed.

Lemma add_txt_record_success_is_genuine_witness :
  exists d,
    transport_answer
      (mkWorld (fun _ => false)
         (fun _ => PostReturns
            (mkResponse 200 "" (Some (PDict [("result", PStr "success")])))))
      (__init__ (Some "user") (Some "secret") None None) add_txt_url
      (add_payload (__init__ (Some "user") (Some "secret") None None)
         "_acme-challenge.example.com" "token") = Return (PDict d) /\
    dict_get "result" d = Some (PStr "success").
Proof.
  apply (add_txt_record_success_is_genuine _ _ _ _ empty_state).
  reflexivity.
Defined.

(** X4. Whatever the network does, no [RequestException] leaves
    [add_txt_record]: the handler takes every one that the transport
    raises, and what it raises in its place is not one. *)
Theorem add_txt_record_no_request_exception
    w self record_name record_content st :
  raises_request_exception
    (add_txt_record w self record_name record_content st).1 = false.
Proof.
  rewrite add_txt_record_run. cbn zeta.
  destruct (send_result _) as [response|e0] eqn:Es.
  - destruct (verdict response) as [[]|e1] eqn:Ev; cbn [fst]; try done.
    by rewrite (verdict_raises _ _ Ev).
  - by destruct (send_result_raises _ _ Es) as [[r|] ->].
Qed.

(** X5. Whatever the network does, [del_txt_record] raises no
    [PluginError] and lets no [RequestException] out: a failure of the
    transport stops in the handler, and an answer that is not a success
    is not turned into an error of the plugin. *)
Theorem del_txt_record_no_plugin_error w self record_name record_content st :
  raises_plugin_error
    (del_txt_record w self record_name record_content st).1 = false /\
  raises_request_exception
    (del_txt_record w self record_name record_content st).1 = false.
Proof.
  rewrite del_txt_record_run. cbn zeta.
  destruct (send_result _) as [response|e0] eqn:Es.
  - destruct (verdict response) as [[]|e1] eqn:Ev; cbn [fst]; try done.
    by rewrite (verdict_raises _ _ Ev).
  - by destruct (send_result_raises _ _ Es) as [[r|] ->].
Qed.

(** ** What the two operations write to the log *)

(** X6. When the transport fails with a response attached,
    [del_txt_record] returns normally and adds two records to the log:
    the attempt, at debug level, and a warning with the status and the
    body of the response. *)
Theorem del_txt_record_warns_of_response w self record_name record_content st r :
  transport_answer w self remove_record_url
    (del_payload self record_name record_content)
  = Raise (RequestException (Some r)) ->
  let out := del_txt_record w self record_name record_content st in
  out.1 = Return tt /\
  log out.2
  = log st ++
    [mkLog DEBUG "Attempting to delete record: %s"
       [PDict (params_form self (del_payload self record_name record_content))];
     mkLog WARNING "Encountered error deleting TXT record: %d %s"
       [PInt (status_code r); PStr (text r)]].
Proof.
  intros Hw out. subst out. rewrite del_txt_record_run. cbn zeta.
  by rewrite <- transport_answer_result, Hw.
Qed.

Lemma del_txt_record_warns_of_response_witness :
  map log_level
    (log (del_txt_record (failing_world (PostReturns server_error))
            (__init__ (Some "user") (Some "secret") None None)
            "_acme-challenge.example.com" "token" empty_state).2)
  = [DEBUG; WARNING].
Proof.
  destruct (del_txt_record_warns_of_response
              (failing_world (PostReturns server_error))
              (__init__ (Some "user") (Some "secret") None None)
              "_acme-challenge.example.com" "token" empty_state server_error
              eq_refl) as [_ Hlog].
  rewrite Hlog. reflexivity.
Defined.

(** X7. When the transport returns a JSON object, [del_txt_record]
    returns normally and adds two records to the log: the attempt and,
    when [result] is ["success"], a debug record, otherwise (another
    value, no [result] key) a warning carrying the object. *)
Theorem del_txt_record_logs_envelope w self record_name record_content st d :
  transport_answer w self remove_record_url
    (del_payload self record_name record_content) = Return (PDict d) ->
  let out := del_txt_record w self record_name record_content st in
  let attempt :=
    mkLog DEBUG "Attempting to delete record: %s"
      [PDict (params_form self (del_payload self record_name record_content))] in
  out.1 = Return tt /\
  (dict_get "result" d = Some (PStr "success") ->
   log out.2
   = log st ++ [attempt; mkLog DEBUG "Successfully deleted TXT record." []]) /\
  (dict_get "result" d <> Some (PStr "success") ->
   log out.2
   = log st ++
     [attempt;
      mkLog WARNING "Encountered error deleting TXT record: %s" [PDict d]]).
Proof.
  intros Hw out attempt. subst out attempt.
  rewrite del_txt_record_run. cbn zeta.
  rewrite <- transport_answer_result, Hw, verdict_dict.
  rewrite <- result_is_success_true.
  destruct (result_is_success d); cbn [negb fst snd log].
  - split; [done|]. split; [done|]. intros H. by destruct H.
  - split; [done|]. split; [done|]. done.
Qed.

Lemma del_txt_record_logs_envelope_witness :
  let w := mkWorld (fun _ => false)
             (fun _ => PostReturns
                (mkResponse 200 "" (Some (PDict [("error_code", PStr "NO_AUTH")])))) in
  map log_level
    (log (del_txt_record w (__init__ (Some "user") (Some "secret") None None)
            "_acme-challenge.example.com" "token" empty_state).2)
  = [DEBUG; WARNING].
Proof.
  intros w.
  destruct (del_txt_record_logs_envelope w
              (__init__ (Some "user") (Some "secret") None None)
              "_acme-challenge.example.com" "token" empty_state
              [("error_code", PStr "NO_AUTH")] eq_refl) as (_ & _ & Hlog).
  rewrite Hlog; [reflexivity|]. discriminate.
Defined.

(** X8. A body that is JSON but not an object. A list without the
    element ["result"] and a string without the part ["result"] count as
    an unsuccessful answer: [add_txt_record] raises [PluginError] and
    [del_txt_record] returns normally. A list or a string that has it,
    and [null], a boolean or a number, end both in a [TypeError]. *)
Theorem non_object_body w self record_name record_content st v :
  transport_answer w self add_txt_url
    (add_payload self record_name record_content) = Return v ->
  transport_answer w self remove_record_url
    (del_payload self record_name record_content) = Return v ->
  let added := (add_txt_record w self record_name record_content st).1 in
  let deleted := (del_txt_record w self record_name record_content st).1 in
  let refused :=
    Raise (PluginError ("Error communicating with the Reg.ru API: "
                        +:+ py_str v)) in
  match v with
  | PDict _ => True
  | PList l =>
      if existsb (fun x => is_str x "result") l
      then added = Raise TypeError /\ deleted = Raise TypeError
      else added = refused /\ deleted = Return tt
  | PStr s =>
      if str_contains "result" s
      then added = Raise TypeError /\ deleted = Raise TypeError
      else added = refused /\ deleted = Return tt
  | _ => added = Raise TypeError /\ deleted = Raise TypeError
  end.
Proof.
  intros Ha Hd added deleted refused. subst added deleted refused.
  rewrite add_txt_record_run, del_txt_record_run. cbn zeta.
  rewrite <- !transport_answer_result, Ha, Hd.
  destruct v as [|b|z|s|l|d]; try done.
  - unfold verdict, contains_result, get_result.
    by destruct (str_contains "result" s).
  - unfold verdict, contains_result, get_result.
    by destruct (existsb _ l).
Qed.

Lemma non_object_body_witness :
  let w := mkWorld (fun _ => false)
             (fun _ => PostReturns (mkResponse 200 "[]" (Some (PList [])))) in
  let self := __init__ (Some "user") (Some "secret") None None in
  (add_txt_record w self "_acme-challenge.example.com" "token" empty_state).1
  = Raise (PluginError "Error communicating with the Reg.ru API: []") /\
  (del_txt_record w self "_acme-challenge.example.com" "token" empty_state).1
  = Return tt.
Proof.
  intros w self.
  exact (non_object_body w self "_acme-challenge.example.com" "token"
           empty_state (PList []) eq_refl eq_refl).
Defined.

(** X9. Before they send it, both operations write the form that they
    post to the debug log, whatever comes of the POST; the form holds the
    payload as JSON text, the password with it. *)
Theorem attempt_logs_posted_form w self record_name record_content st :
  (exists req payload lg,
     posted (add_txt_record w self record_name record_content st).2
       = posted st ++ [req] /\
     log (add_txt_record w self record_name record_content st).2
       = log st ++
         mkLog DEBUG "Attempting to add record: %s" [PDict (post_data req)]
         :: lg /\
     dict_get "input_data" (post_data req)
       = Some (PStr (dumps (PDict payload))) /\
     dict_get "password" payload = Some (of_option (password self))) /\
  (exists req payload lg,
     posted (del_txt_record w self record_name record_content st).2
       = posted st ++ [req] /\
     log (del_txt_record w self record_name record_content st).2
       = log st ++
         mkLog DEBUG "Attempting to delete record: %s" [PDict (post_data req)]
         :: lg /\
     dict_get "input_data" (post_data req)
       = Some (PStr (dumps (PDict payload))) /\
     dict_get "password" payload = Some (of_option (password self))).
Proof.
  split.
  - exists (request_of w self add_txt_url
              (add_payload self record_name record_content)),
           (add_payload self record_name record_content).
    assert (Hlg : exists lg,
      (add_txt_record w self record_name record_content st).2
      = mkState (heap st ++ [add_payload self record_name record_content])
          (log st ++
           mkLog DEBUG "Attempting to add record: %s"
             [PDict (params_form self
                       (add_payload self record_name record_content))] :: lg)
          (posted st ++
           [request_of w self add_txt_url
              (add_payload self record_name record_content)])).
    { rewrite add_txt_record_run. cbn zeta. case_send_result; eauto.
      destruct (verdict response) as [[]|e]; eauto. }
    destruct Hlg as [lg ->]. exists lg. cbn [posted log post_data request_of].
    split; [done|]. split; [done|]. split.
    + unfold params_form, dict_update. cbn [fold_left fst snd].
      apply dict_get_set_eq.
    + apply params_payload_password.
  - exists (request_of w self remove_record_url
              (del_payload self record_name record_content)),
           (del_payload self record_name record_content).
    assert (Hlg : exists lg,
      (del_txt_record w self record_name record_content st).2
      = mkState (heap st ++ [del_payload self record_name record_content])
          (log st ++
           mkLog DEBUG "Attempting to delete record: %s"
             [PDict (params_form self
                       (del_payload self record_name record_content))] :: lg)
          (posted st ++
           [request_of w self remove_record_url
              (del_payload self record_name record_content)])).
    { rewrite del_txt_record_run. cbn zeta. case_send_result; eauto.
      destruct (verdict response) as [[]|e]; eauto. }
    destruct Hlg as [lg ->]. exists lg. cbn [posted log post_data request_of].
    split; [done|]. split; [done|]. split.
    + unfold params_form, dict_update. cbn [fold_left fst snd].
      apply dict_get_set_eq.
    + apply params_payload_password.
Qed.

(** ** [_create_params]: the name, the order of the keys, a dict used twice *)

Lemma str_split_nonempty sep s : str_split sep s <> [].
Proof.
  destruct s as [|c s]; cbn [str_split]; [done|].
  destruct (Ascii.eqb c sep); [done|]. by destruct (str_split sep s).
Qed.

Lemma str_join_split sep s :
  str_join (String sep "") (str_split sep s) = s.
Proof.
  unfold str_join. induction s as [|c s IH]; [reflexivity|].
  cbn [str_split]. pose proof (str_split_nonempty sep s) as Hne.
  destruct (Ascii.eqb c sep) eqn:Ec.
  - apply Ascii.eqb_eq in Ec. subst c.
    destruct (str_split sep s) as [|w ws]; [done|].
    change (String.concat (String sep "") ("" :: w :: ws))
      with (String sep (String.concat (String sep "") (w :: ws))).
    by rewrite IH.
  - destruct (str_split sep s) as [|w ws]; [done|].
    rewrite <- IH. by destruct ws.
Qed.

Lemma str_join_app sep (l1 l2 : list string) :
  l1 <> [] -> l2 <> [] ->
  str_join sep (l1 ++ l2) = str_join sep l1 +:+ sep +:+ str_join sep l2.
Proof.
  unfold str_join. intros H1 H2. induction l1 as [|x l1 IH]; [done|].
  destruct l1 as [|y l1].
  - destruct l2 as [|z l2]; [done|]. reflexivity.
  - change (String.concat sep ((x :: y :: l1) ++ l2))
      with (x +:+ sep +:+ String.concat sep ((y :: l1) ++ l2)).
    rewrite IH by done.
    change (String.concat sep (x :: y :: l1))
      with (x +:+ sep +:+ String.concat sep (y :: l1)).
    by rewrite !string_app_assoc.
Qed.

(** X10. [subdomain] and [dname] partition the name: with more than two
    labels the name is [subdomain], a dot and [dname]; with one or two
    labels [subdomain] is empty and [dname] is the whole name. *)
Theorem create_params_partitions_name self domain input_data st d0 :
  heap st !! input_data = Some d0 ->
  exists payload sub dname,
    heap (_create_params self domain input_data st).2 !! input_data
      = Some payload /\
    dict_get "subdomain" payload = Some (PStr sub) /\
    dict_get "domains" payload = Some (PList [PDict [("dname", PStr dname)]]) /\
    (length (str_split "." domain) <= 2 -> sub = "" /\ dname = domain) /\
    (2 < length (str_split "." domain) -> domain = sub +:+ "." +:+ dname).
Proof.
  intros Hd0. rewrite _create_params_heap, list_lookup_alter_eq, Hd0.
  eexists _, _, _. split; [reflexivity|].
  split; [apply params_payload_subdomain|].
  split; [apply params_payload_domains|].
  pose proof (str_join_split "." domain) as Hjoin.
  unfold all_but_last_two, last_two.
  set (pieces := str_split "." domain) in *.
  split.
  - intros Hlen.
    replace (length pieces - 2) with 0 by lia.
    rewrite take_0, drop_0. by split.
  - intros Hlen. rewrite <- Hjoin at 1.
    rewrite <- (take_drop (length pieces - 2) pieces) at 1.
    apply str_join_app.
    + intros H. apply (f_equal length) in H. rewrite length_take in H.
      simpl in H. lia.
    + intros H. apply (f_equal length) in H. rewrite length_drop in H.
      simpl in H. lia.
Qed.

Lemma create_params_partitions_name_witness :
  exists payload sub dname,
    heap (_create_params (__init__ (Some "user") (Some "secret") None None)
            "_acme-challenge.www.example.com" 0
            (mkState [[("text", PStr "token")]] [] [])).2 !! 0
      = Some payload /\
    dict_get "subdomain" payload = Some (PStr sub) /\
    dict_get "domains" payload = Some (PList [PDict [("dname", PStr dname)]]) /\
    "_acme-challenge.www.example.com" = sub +:+ "." +:+ dname.
Proof.
  destruct (create_params_partitions_name
              (__init__ (Some "user") (Some "secret") None None)
              "_acme-challenge.www.example.com" 0
              (mkState [[("text", PStr "token")]] [] [])
              [("text", PStr "token")] eq_refl)
    as (payload & sub & dname & Hheap & Hsub & Hdom & _ & Hmany).
  exists payload, sub, dname. repeat split; try assumption.
  apply Hmany. cbn. lia.
Defined.

Lemma dict_keys_app (d1 d2 : list (string * pyval)) :
  dict_keys (d1 ++ d2) = dict_keys d1 ++ dict_keys d2.
Proof. unfold dict_keys. apply map_app. Qed.

(** X11. When the caller's dict has none of the five keys, they are
    appended to it in the order in which the code sets them, after the
    caller's own entries: this is the order of the fields in the JSON
    text. *)
Theorem create_params_appends_in_order self domain input_data st d0 :
  heap st !! input_data = Some d0 ->
  (forall k, In k injected_keys -> ~ In k (dict_keys d0)) ->
  heap (_create_params self domain input_data st).2 !! input_data
  = Some (d0 ++
          [("subdomain",
            PStr (str_join "." (py_slice None (Some (-2)%Z)
                                  (str_split "." domain))));
           ("domains",
            PList [PDict [("dname",
                     PStr (str_join "." (py_slice (Some (-2)%Z) None
                                           (str_split "." domain))))]]);
           ("output_content_type", PStr "json");
           ("username", of_option (username self));
           ("password", of_option (password self))]).
Proof.
  intros Hd0 Hfree.
  rewrite _create_params_heap, list_lookup_alter_eq, Hd0.
  rewrite py_slice_to_minus_2, py_slice_from_minus_2.
  cbn [fmap option_fmap option_map]. f_equal. unfold params_payload.
  assert (Hnot : forall k l,
    In k injected_keys -> ~ In k (dict_keys l) -> ~ In k (dict_keys (d0 ++ l))).
  { intros k l Hk Hl. rewrite dict_keys_app. intros Hin.
    apply in_app_or in Hin as [Hin|Hin]; [by apply (Hfree k)|done]. }
  rewrite (dict_keys_set_notin "subdomain") by (apply Hfree; cbn; tauto).
  rewrite (dict_keys_set_notin "domains"), <- app_assoc
    by (apply Hnot; cbn; [tauto|intros [[=]|[]]]).
  rewrite (dict_keys_set_notin "output_content_type"), <- app_assoc
    by (apply Hnot; cbn; [tauto|intros [[=]|[[=]|[]]]]).
  rewrite (dict_keys_set_notin "username"), <- app_assoc
    by (apply Hnot; cbn; [tauto|intros [[=]|[[=]|[[=]|[]]]]]).
  rewrite (dict_keys_set_notin "password"), <- app_assoc
    by (apply Hnot; cbn; [tauto|intros [[=]|[[=]|[[=]|[[=]|[]]]]]]).
  reflexivity.
Qed.

Lemma create_params_appends_in_order_witness :
  heap (_create_params (__init__ (Some "user") None None None)
          "_acme-challenge.example.com" 0
          (mkState [[("record_type", PStr "TXT"); ("content", PStr "token")]]
             [] [])).2 !! 0
  = Some [("record_type", PStr "TXT"); ("content", PStr "token");
          ("subdomain", PStr "_acme-challenge");
          ("domains", PList [PDict [("dname", PStr "example.com")]]);
          ("output_content_type", PStr "json");
          ("username", PStr "user"); ("password", PNone)].
Proof.
  apply (create_params_appends_in_order
           (__init__ (Some "user") None None None)
           "_acme-challenge.example.com" 0
           (mkState [[("record_type", PStr "TXT"); ("content", PStr "token")]]
              [] [])
           [("record_type", PStr "TXT"); ("content", PStr "token")]).
  - reflexivity.
  - unfold injected_keys. cbn.
    intros k [<-|[<-|[<-|[<-|[<-|[]]]]]] [[=]|[[=]|[]]].
Defined.

Lemma dict_set_set k v v' d : dict_set k v (dict_set k v' d) = dict_set k v d.
Proof.
  induction d as [|[k0 v0] d IH]; cbn [dict_set].
  - by rewrite String.eqb_refl.
  - destruct (String.eqb k0 k) eqn:E; cbn [dict_set]; rewrite E; [done|].
    by rewrite IH.
Qed.

Lemma dict_set_comm k k' v v' d :
  k <> k' -> In k (dict_keys d) ->
  dict_set k v (dict_set k' v' d) = dict_set k' v' (dict_set k v d).
Proof.
  intros Hne. induction d as [|[k0 v0] d IH]; [done|].
  cbn [dict_keys map fst In]. intros Hin. cbn [dict_set].
  destruct (String.eqb k0 k') eqn:E', (String.eqb k0 k) eqn:E;
    cbn [dict_set]; rewrite ?E, ?E'; try done.
  - apply String.eqb_eq in E, E'. congruence.
  - rewrite IH; [done|]. destruct Hin as [->|Hin]; [|done].
    by rewrite String.eqb_refl in E.
Qed.

Lemma dict_keys_set_same k v d : In k (dict_keys (dict_set k v d)).
Proof.
  induction d as [|[k0 v0] d IH]; cbn [dict_set]; [by left|].
  destruct (String.eqb k0 k) eqn:E; cbn [dict_keys map fst In].
  - left. by apply String.eqb_eq.
  - right. exact IH.
Qed.

Lemma dict_keys_set_other k k' v d :
  In k (dict_keys d) -> In k (dict_keys (dict_set k' v d)).
Proof.
  induction d as [|[k0 v0] d IH]; [done|].
  cbn [dict_keys map fst In dict_set]. intros Hin.
  destruct (String.eqb k0 k'); cbn [dict_keys map fst In].
  - exact Hin.
  - destruct Hin as [->|Hin]; [by left|]. right. by apply IH.
Qed.

Ltac solve_key :=
  repeat first [apply dict_keys_set_same | apply dict_keys_set_other].

Lemma params_payload_twice self1 domain1 self2 domain2 d :
  params_payload self2 domain2 (params_payload self1 domain1 d)
  = params_payload self2 domain2 d.
Proof.
  unfold params_payload. cbn zeta.
  rewrite (dict_set_comm "subdomain" "password") by (done || solve_key).
  rewrite (dict_set_comm "subdomain" "username") by (done || solve_key).
  rewrite (dict_set_comm "subdomain" "output_content_type")
    by (done || solve_key).
  rewrite (dict_set_comm "subdomain" "domains") by (done || solve_key).
  rewrite (dict_set_set "subdomain").
  rewrite (dict_set_comm "domains" "password") by (done || solve_key).
  rewrite (dict_set_comm "domains" "username") by (done || solve_key).
  rewrite (dict_set_comm "domains" "output_content_type")
    by (done || solve_key).
  rewrite (dict_set_set "domains").
  rewrite (dict_set_comm "output_content_type" "password")
    by (done || solve_key).
  rewrite (dict_set_comm "output_content_type" "username")
    by (done || solve_key).
  rewrite (dict_set_set "output_content_type").
  rewrite (dict_set_comm "username" "password") by (done || solve_key).
  rewrite (dict_set_set "username").
  by rewrite (dict_set_set "password").
Qed.

(** X12. A dict that went through [_create_params] once carries nothing
    over into a second call on it: the second call returns the form, and
    leaves the dict, that it would on the dict as it was before the
    first. *)
Theorem create_params_on_used_dict self1 domain1 self2 domain2 input_data st :
  _create_params self2 domain2 input_data
    (_create_params self1 domain1 input_data st).2
  = _create_params self2 domain2 input_data st.
Proof.
  rewrite !_create_params_run. cbn [snd heap log posted].
  rewrite list_lookup_alter_eq, list_alter_alter_eq.
  f_equal.
  - destruct (heap st !! input_data) as [d|]; [|done].
    cbn [fmap option_fmap option_map]. by rewrite params_payload_twice.
  - f_equal. apply list_alter_ext; [|done].
    intros d _. apply params_payload_twice.
Qed.

(** ** The validator and the two tasks of the authenticator *)

Lemma _validate_credentials_run w credentials st :
  _validate_credentials w credentials st
  = (if credentials_accepted w credentials then Return tt else Raise IndexError,
     st).
Proof.
  unfold credentials_accepted.
  destruct (truthy (conf credentials "password")) eqn:Hp;
    [|by rewrite _validate_credentials_no_login by auto].
  destruct (truthy (conf credentials "username")) eqn:Hu;
    [|by rewrite _validate_credentials_no_login by auto].
  unfold _validate_credentials, mbind, M_bind.
  rewrite Hu, Hp. cbn [negb orb andb]. unfold mret, M_ret.
  destruct (conf credentials "cert") as [c|]; [|done].
  destruct (conf credentials "key") as [k|]; [|done].
  destruct (truthy (Some c) && truthy (Some k)
            && (negb (path_exists w c) || negb (path_exists w k))); [|done].
  unfold lift. by rewrite format_two_fields_one_argument by auto.
Qed.

Lemma credentials_accepted_true w credentials :
  credentials_accepted w credentials = true <->
  truthy (conf credentials "username") = true /\
  truthy (conf credentials "password") = true /\
  (forall c k,
     conf credentials "cert" = Some c -> conf credentials "key" = Some k ->
     c <> "" -> k <> "" ->
     path_exists w c = true /\ path_exists w k = true).
Proof.
  unfold credentials_accepted.
  destruct (truthy (conf credentials "password")); cbn [andb];
    [|split; [done|intros (_ & ? & _); done]].
  destruct (truthy (conf credentials "username")); cbn [andb];
    [|split; [done|intros (? & _); done]].
  destruct (conf credentials "cert") as [c|];
    [|split; [intros _; repeat split; try done|done]].
  destruct (conf credentials "key") as [k|];
    [|split; [intros _; repeat split; try done|done]].
  destruct c as [|a c].
  { split; [|done]. intros _. repeat split; try done.
    all: congruence. }
  destruct k as [|b k].
  { split; [|done]. intros _. repeat split; try done.
    all: congruence. }
  cbn [truthy andb].
  destruct (path_exists w (String a c)) eqn:Ec,
           (path_exists w (String b k)) eqn:Ek; cbn [negb orb].
  - split; [|done]. intros _. repeat split; try done.
    all: congruence.
  - split; [done|]. intros (_ & _ & H).
    destruct (H _ _ eq_refl eq_refl) as [_ H']; [done..|]. congruence.
  - split; [done|]. intros (_ & _ & H).
    destruct (H _ _ eq_refl eq_refl) as [H' _]; [done..|]. congruence.
  - split; [done|]. intros (_ & _ & H).
    destruct (H _ _ eq_refl eq_refl) as [H' _]; [done..|]. congruence.
Qed.

Lemma validate_credentials_accepts w credentials st :
  (_validate_credentials w credentials st).1 = Return tt ->
  truthy (conf credentials "username") = true /\
  truthy (conf credentials "password") = true /\
  (forall c k,
     conf credentials "cert" = Some c -> conf credentials "key" = Some k ->
     c <> "" -> k <> "" ->
     path_exists w c = true /\ path_exists w k = true).
Proof.
  rewrite _validate_credentials_run. cbn [fst].
  rewrite <- credentials_accepted_true.
  by destruct (credentials_accepted w credentials).
Qed.

(** X13. [_validate_credentials] never raises [PluginError]: on each of
    its two ways to that [raise], [str.format] fails first. When it
    returns normally the user name and the password are not empty and,
    where the certificate and the key are both paths that are not empty,
    both files exist. Either way it leaves the state as it was: nothing
    is posted and nothing is logged. *)
Theorem validate_credentials_outcome w credentials st :
  let out := _validate_credentials w credentials st in
  raises_plugin_error out.1 = false /\
  (out.1 = Return tt ->
   truthy (conf credentials "username") = true /\
   truthy (conf credentials "password") = true /\
   (forall c k,
      conf credentials "cert" = Some c -> conf credentials "key" = Some k ->
      c <> "" -> k <> "" ->
      path_exists w c = true /\ path_exists w k = true)) /\
  out.2 = st.
Proof.
  intros out. subst out. split; [|split].
  - rewrite _validate_credentials_run. cbn [fst].
    by destruct (credentials_accepted w credentials).
  - apply validate_credentials_accepts.
  - by rewrite _validate_credentials_run.
Qed.

Lemma perform_state w credentials domain validation_name validation st :
  let self := _get_regru_client credentials in
  let payload := add_payload self validation_name validation in
  heap (_perform w credentials domain validation_name validation st).2
    = heap st ++ [payload] /\
  posted (_perform w credentials domain validation_name validation st).2
    = posted st ++ [request_of w self add_txt_url payload].
Proof. apply add_txt_record_state. Qed.

Lemma cleanup_state w credentials domain validation_name validation st :
  let self := _get_regru_client credentials in
  let payload := del_payload self validation_name validation in
  heap (_cleanup w credentials domain validation_name validation st).2
    = heap st ++ [payload] /\
  posted (_cleanup w credentials domain validation_name validation st).2
    = posted st ++ [request_of w self remove_record_url payload].
Proof. apply del_txt_record_state. Qed.

(** X14. Credentials that the validator accepted and that give a
    certificate and a key make [_perform] and [_cleanup] present them:
    the POST of each carries the pair. *)
Theorem validated_cert_is_presented w credentials st0 st
    domain validation_name validation c k :
  (_validate_credentials w credentials st0).1 = Return tt ->
  conf credentials "cert" = Some c -> c <> "" ->
  conf credentials "key" = Some k -> k <> "" ->
  (exists req,
     posted (_perform w credentials domain validation_name validation st).2
       = posted st ++ [req] /\
     post_cert req = Some (c, k)) /\
  (exists req,
     posted (_cleanup w credentials domain validation_name validation st).2
       = posted st ++ [req] /\
     post_cert req = Some (c, k)).
Proof.
  intros Hok Hc Hce Hk Hke.
  apply validate_credentials_accepts in Hok as (_ & _ & Hfiles).
  destruct (Hfiles c k Hc Hk Hce Hke) as [Hec Hek].
  assert (Hcert : client_cert w (cert (_get_regru_client credentials))
                    (key (_get_regru_client credentials)) = Some (c, k)).
  { unfold _get_regru_client, __init__, client_cert. cbn [cert key].
    rewrite Hc, Hk, Hec, Hek.
    destruct c; [done|]. destruct k; [done|]. reflexivity. }
  split.
  - destruct (perform_state w credentials domain validation_name validation st)
      as [_ Hposted].
    eexists. split; [exact Hposted|]. exact Hcert.
  - destruct (cleanup_state w credentials domain validation_name validation st)
      as [_ Hposted].
    eexists. split; [exact Hposted|]. exact Hcert.
Qed.

Lemma validated_cert_is_presented_witness :
  let w := mkWorld (fun _ => true) (fun _ => PostRaises None) in
  let credentials :=
    mkCredentials "regru.ini"
      (<[ "key" := "client.key" ]> (variables lone_cert)) in
  exists req,
    posted (_perform w credentials "example.com"
              "_acme-challenge.example.com" "token" empty_state).2 = [req] /\
    post_cert req = Some ("/usr/local/etc/ssl/client.crt", "client.key").
Proof.
  intros w credentials.
  destruct (validated_cert_is_presented w credentials empty_state empty_state
              "example.com" "_acme-challenge.example.com" "token"
              "/usr/local/etc/ssl/client.crt" "client.key")
    as [Hperform _]; try reflexivity; try discriminate.
  exact Hperform.
Defined.

(** X15. Credentials that the validator accepted put a user name and a
    password that are true values into the payload of [_perform] and of
    [_cleanup]: after validation no request goes out with a login that is
    [null] or empty. *)
Theorem validated_login_is_sent w credentials st0 st
    domain validation_name validation name :
  (_validate_credentials w credentials st0).1 = Return tt ->
  name = "username" \/ name = "password" ->
  (exists payload v,
     heap (_perform w credentials domain validation_name validation st).2
       = heap st ++ [payload] /\
     dict_get name payload = Some v /\ value_truthy v = true) /\
  (exists payload v,
     heap (_cleanup w credentials domain validation_name validation st).2
       = heap st ++ [payload] /\
     dict_get name payload = Some v /\ value_truthy v = true).
Proof.
  intros Hok Hname.
  apply validate_credentials_accepts in Hok as (Hu & Hp & _).
  assert (Hv : forall o, truthy o = true -> value_truthy (of_option o) = true)
    by (intros [[|a s]|]; done).
  destruct (perform_state w credentials domain validation_name validation st)
    as [Hperform _].
  destruct (cleanup_state w credentials domain validation_name validation st)
    as [Hcleanup _].
  destruct Hname as [-> | ->]; (split; eexists _, _;
    (split; [first [exact Hperform | exact Hcleanup]|]);
    unfold add_payload, del_payload).
  - rewrite params_payload_username. split; [reflexivity|]. by apply Hv.
  - rewrite params_payload_username. split; [reflexivity|]. by apply Hv.
  - rewrite params_payload_password. split; [reflexivity|]. by apply Hv.
  - rewrite params_payload_password. split; [reflexivity|]. by apply Hv.
Qed.

Lemma validated_login_is_sent_witness :
  exists payload v,
    heap (_perform (mkWorld (fun _ => true) (fun _ => PostRaises None))
            lone_cert "example.com" "_acme-challenge.example.com" "token"
            empty_state).2 = [payload] /\
    dict_get "password" payload = Some v /\ value_truthy v = true.
Proof.
  destruct (validated_login_is_sent
              (mkWorld (fun _ => true) (fun _ => PostRaises None))
              lone_cert empty_state empty_state
              "example.com" "_acme-challenge.example.com" "token" "password"
              eq_refl (or_intror eq_refl))
    as [Hperform _].
  exact Hperform.
Defined.

(** X16. [_perform] and then [_cleanup] on the same arguments make two
    POSTs, the first to [zone/add_txt] and the second to
    [zone/remove_record], with the same client certificate; the two
    payloads agree on [subdomain], [domains], [output_content_type],
    [username] and [password], and the [content] of the second is the
    [text] of the first. The record is named by [validation_name] alone:
    the [domain] argument plays no part. *)
Theorem perform_then_cleanup w credentials domain validation_name validation st :
  let st1 := (_perform w credentials domain validation_name validation st).2 in
  let st2 := (_cleanup w credentials domain validation_name validation st1).2 in
  (exists added removed pa pd,
     posted st2 = posted st ++ [added; removed] /\
     post_url added = "https://api.reg.ru/api/regru2/zone/add_txt" /\
     post_url removed = "https://api.reg.ru/api/regru2/zone/remove_record" /\
     post_cert added = post_cert removed /\
     heap st2 = heap st ++ [pa; pd] /\
     dict_get "text" pa = Some (PStr validation) /\
     dict_get "record_type" pd = Some (PStr "TXT") /\
     dict_get "content" pd = Some (PStr validation) /\
     (forall k, In k injected_keys -> dict_get k pa = dict_get k pd)) /\
  (forall domain' s,
     _perform w credentials domain' validation_name validation s
     = _perform w credentials domain validation_name validation s /\
     _cleanup w credentials domain' validation_name validation s
     = _cleanup w credentials domain validation_name validation s).
Proof.
  intros st1 st2. split; [|by split].
  destruct (perform_state w credentials domain validation_name validation st)
    as [Hh1 Hp1].
  destruct (cleanup_state w credentials domain validation_name validation st1)
    as [Hh2 Hp2].
  fold st1 in Hh1, Hp1. fold st2 in Hh2, Hp2.
  rewrite Hh1 in Hh2. rewrite Hp1 in Hp2.
  rewrite <- app_assoc in Hh2, Hp2.
  eexists _, _, _, _. split; [exact Hp2|].
  split; [reflexivity|]. split; [reflexivity|]. split; [reflexivity|].
  split; [exact Hh2|].
  rewrite add_payload_items, del_payload_items.
  split; [reflexivity|]. split; [reflexivity|]. split; [reflexivity|].
  intros k [<-|[<-|[<-|[<-|[<-|[]]]]]]; reflexivity.
Qed.

(** X17. When the transport returns a JSON object, [add_txt_record] adds
    two records to the log: the attempt and, when [result] is
    ["success"], a debug record, otherwise an error record carrying the
    object. *)
Theorem add_txt_record_logs_envelope w self record_name record_content st d :
  transport_answer w self add_txt_url
    (add_payload self record_name record_content) = Return (PDict d) ->
  let out := add_txt_record w self record_name record_content st in
  let attempt :=
    mkLog DEBUG "Attempting to add record: %s"
      [PDict (params_form self (add_payload self record_name record_content))] in
  (dict_get "result" d = Some (PStr "success") ->
   log out.2 = log st ++ [attempt; mkLog DEBUG "Successfully added TXT record" []]) /\
  (dict_get "result" d <> Some (PStr "success") ->
   log out.2
   = log st ++
     [attempt; mkLog ERROR "Encountered error adding TXT record: %s" [PDict d]]).
Proof.
  intros Hw out attempt. subst out attempt.
  rewrite add_txt_record_run. cbn zeta.
  rewrite <- transport_answer_result, Hw, verdict_dict.
  rewrite <- result_is_success_true.
  destruct (result_is_success d); cbn [negb fst snd log].
  - split; [done|]. intros H. by destruct H.
  - split; done.
Qed.

Lemma add_txt_record_logs_envelope_witness :
  let w := mkWorld (fun _ => false)
             (fun _ => PostReturns
                (mkResponse 200 "" (Some (PDict [("result", PStr "error")])))) in
  map log_level
    (log (add_txt_record w (__init__ (Some "user") (Some "secret") None None)
            "_acme-challenge.example.com" "token" empty_state).2)
  = [DEBUG; ERROR].
Proof.
  intros w.
  destruct (add_txt_record_logs_envelope w
              (__init__ (Some "user") (Some "secret") None None)
              "_acme-challenge.example.com" "token" empty_state
              [("result", PStr "error")] eq_refl) as (_ & Hlog).
  rewrite Hlog; [reflexivity|]. discriminate.
Defined.

(** ** The text that goes on the wire *)

Lemma printable_app (a b : string) :
  printable (a +:+ b) = printable a && printable b.
Proof.
  unfold printable. induction a as [|c a IH]; [done|].
  cbn [String.append list_ascii_of_string forallb]. by rewrite IH, andb_assoc.
Qed.

Lemma printable_escape_char (c : ascii) : printable (escape_char c) = true.
Proof. destruct c as [[] [] [] [] [] [] [] []]; reflexivity. Qed.

Lemma printable_escape_body (s : string) : printable (escape_body s) = true.
Proof.
  induction s as [|c s IH]; [done|]. cbn [escape_body].
  by rewrite printable_app, printable_escape_char, IH.
Qed.

Lemma printable_encode_str (s : string) : printable (encode_str s) = true.
Proof.
  unfold encode_str.
  change (String dquote (escape_body s +:+ String dquote ""))
    with (String dquote "" +:+ (escape_body s +:+ String dquote "")).
  by rewrite !printable_app, printable_escape_body.
Qed.

Lemma printable_uint (d : Decimal.uint) :
  printable (NilEmpty.string_of_uint d) = true.
Proof. induction d; cbn [NilEmpty.string_of_uint]; done. Qed.

Lemma printable_encode_int (z : Z) : printable (encode_int z) = true.
Proof.
  unfold encode_int, str_of_int. destruct z as [|p|p]; [done| |].
  - apply printable_uint.
  - change (String "-" ?s) with ("-" +:+ s).
    by rewrite printable_app, printable_uint.
Qed.

Lemma printable_concat (l : list string) :
  Forall (fun s => printable s = true) l ->
  printable (String.concat ", " l) = true.
Proof.
  induction 1 as [|x l Hx Hl IH]; [done|].
  destruct l as [|y l]; [done|].
  change (String.concat ", " (x :: y :: l))
    with (x +:+ ", " +:+ String.concat ", " (y :: l)).
  by rewrite !printable_app, Hx, IH.
Qed.

Lemma printable_dumps (v : pyval) : printable (dumps v) = true.
Proof.
  induction v as [|b|z|s|l IH|d IH] using pyval_ind.
  - reflexivity.
  - by destruct b.
  - apply printable_encode_int.
  - apply printable_encode_str.
  - cbn [dumps]. rewrite !printable_app, printable_concat; [done|].
    by apply Forall_fmap.
  - rewrite dumps_dict_items, !printable_app, printable_concat; [done|].
    apply Forall_fmap. eapply Forall_impl; [exact IH|].
    intros [k x] Hx. unfold dumps_item. cbn [fst snd compose] in *.
    by rewrite !printable_app, printable_encode_str, Hx.
Qed.

(** X18. The [input_data] field of every form that [add_txt_record] and
    [del_txt_record] post is printable ASCII from end to end, whatever
    characters the record name, the record content, the user name and
    the password hold. *)
Theorem posted_input_data_is_ascii w self record_name record_content st :
  (exists req text,
     posted (add_txt_record w self record_name record_content st).2
       = posted st ++ [req] /\
     dict_get "input_data" (post_data req) = Some (PStr text) /\
     printable text = true) /\
  (exists req text,
     posted (del_txt_record w self record_name record_content st).2
       = posted st ++ [req] /\
     dict_get "input_data" (post_data req) = Some (PStr text) /\
     printable text = true).
Proof.
  split.
  - destruct (add_txt_record_state w self record_name record_content st)
      as [_ Hposted].
    eexists _, _. split; [exact Hposted|]. split.
    + unfold request_of, params_form, dict_update.
      cbn [post_data fold_left fst snd]. apply dict_get_set_eq.
    + apply printable_dumps.
  - destruct (del_txt_record_state w self record_name record_content st)
      as [_ Hposted].
    eexists _, _. split; [exact Hposted|]. split.
    + unfold request_of, params_form, dict_update.
      cbn [post_data fold_left fst snd]. apply dict_get_set_eq.
    + apply printable_dumps.
Qed.
